(** * SmartScan AI backend: verdict engine, allergen detector, handlers

    A shallow embedding of [main.py] and [schemas.py].

    - Python [int] is [Z]; Python [float] is the kernel's binary64 [float],
      so NaN and the infinities are values a nutrient field can hold.
    - [Optional[T]] is [option T]; [Literal[...]] types are enumerations.
    - A pydantic model is a record, declared in a module of the model's name
      so that fields keep the names they have in [schemas.py]. *)

From Stdlib Require Import ZArith String Ascii Strings.Byte List Bool Lia Floats.
From Stdlib Require Uint63.
From stdpp Require Import base decidable option list gmap strings fin_maps pretty.
Import ListNotations.

#[local] Set Warnings "-register-all".
#[local] Open Scope string_scope.
#[local] Open Scope Z_scope.

(** ** schemas.py *)

Inductive GoalType := balanced | weight_loss | muscle_gain | heart_health | low_sugar.
Inductive LanguageCode := en | hi | mr | hinglish.
Inductive Color := green | yellow | red.
Inductive InsulinRisk := low | medium | high.

#[global] Instance GoalType_eq_dec : EqDecision GoalType.
Proof. solve_decision. Defined.
#[global] Instance Color_eq_dec : EqDecision Color.
Proof. solve_decision. Defined.
#[global] Instance InsulinRisk_eq_dec : EqDecision InsulinRisk.
Proof. solve_decision. Defined.

Definition all_goals : list GoalType :=
  [balanced; weight_loss; muscle_gain; heart_health; low_sugar].

Module Nutrients.
Record t := mk {
  calories : option float;
  protein : option float;
  carbs : option float;
  sugar : option float;
  fat : option float;
  sat_fat : option float;
  fiber : option float;
  sodium : option float
}.
(** [Nutrients()] : every field at its default, [None]. *)
Definition default : t := mk None None None None None None None None.
End Nutrients.

Module ScanItem.
Record t := mk {
  name : option string;
  brand : option string;
  barcode : option string;
  image_url : option string;
  ingredients_text : option string;
  nutrients : option Nutrients.t;
  processing_level : option string
}.
Definition default : t := mk None None None None None None None.
End ScanItem.

Module Verdict.
Record t := mk {
  color : Color;
  score : Z;
  explanation : string;
  insulin_risk : InsulinRisk
}.
(** [score: int = Field(ge=0, le=100)] : what the constructor validates. *)
Definition valid (v : t) : Prop := 0 <= score v <= 100.
End Verdict.

(** ** main.py: [compute_verdict] *)

(** [item.nutrients and item.nutrients.<field> is not None] binds the field's
    value; a model instance is always truthy, so the test on [item.nutrients]
    is a test against [None]. *)
Definition nutrient (field : Nutrients.t -> option float) (item : ScanItem.t)
  : option float :=
  match ScanItem.nutrients item with
  | Some n => field n
  | None => None
  end.

(** Lines 35-60: the score and the insulin risk before the clamp. *)
Definition score_and_risk (goal : GoalType) (item : ScanItem.t) : Z * InsulinRisk :=
  let score := 70 in
  let insulin_risk := medium in
  let '(score, insulin_risk) :=
    match nutrient Nutrients.sugar item with
    | Some sugar =>
        if decide (goal ∈ [low_sugar; heart_health]) then
          if (sugar <=? 5)%float then (score + 20, low)
          else if (sugar <=? 10)%float then (score + 0, medium)
          else (score - 25, high)
        else (score, insulin_risk)
    | None => (score, insulin_risk)
    end in
  let score :=
    match nutrient Nutrients.protein item with
    | Some protein =>
        if decide (goal = muscle_gain) then
          if (20 <=? protein)%float then score + 15
          else if (10 <=? protein)%float then score + 5
          else score - 10
        else score
    | None => score
    end in
  let score :=
    match nutrient Nutrients.calories item with
    | Some c =>
        if decide (goal = weight_loss) then
          if (c <=? 150)%float then score + 10
          else if (350 <? c)%float then score - 15
          else score
        else score
    | None => score
    end in
  (score, insulin_risk).

Definition compute_verdict (goal : GoalType) (item : ScanItem.t) : Verdict.t :=
  let '(score, insulin_risk) := score_and_risk goal item in
  let score := Z.max 0 (Z.min 100 score) in
  let color := if 75 <=? score then green else if 55 <=? score then yellow else red in
  let explanation :=
    if decide (color = green) then
      "Balanced nutrients; aligns well with your selected goal."
    else if decide (color = yellow) then
      "Mixed profile; moderation advised based on your goal."
    else
      "High risk factors for your goal; consider safer option." in
  Verdict.mk color score explanation insulin_risk.

(** The examples of the specification's section 8. *)
Definition item_with (n : Nutrients.t) : ScanItem.t :=
  ScanItem.mk None None None None None (Some n) None.
Definition only_sugar (x : float) : ScanItem.t :=
  item_with (Nutrients.mk None None None (Some x) None None None None).
Definition only_protein (x : float) : ScanItem.t :=
  item_with (Nutrients.mk None (Some x) None None None None None None).
Definition only_calories (x : float) : ScanItem.t :=
  item_with (Nutrients.mk (Some x) None None None None None None None).


(** The item has no nutrient at all: no nutrient record, or a record whose
    every field is absent. *)
Definition nutrients_absent (item : ScanItem.t) : Prop :=
  ScanItem.nutrients item = None \/ ScanItem.nutrients item = Some Nutrients.default.

(** The adjustments the three blocks can make to the base score. *)
Definition adjustments : list Z := [20; 0; -25; 15; 5; -10; 10; -15].

(** ** The reference algorithm of the specification's section 4.1

    Written from the specification's words, step by step, with the
    intervals spelled out: it is what [compute_verdict] is compared with. *)
Module Reference.
(** Step 1: the score and the insulin risk the steps start from. *)
Definition start : Z * InsulinRisk := (70, medium).

Definition sugar_goal (goal : GoalType) : bool :=
  match goal with
  | low_sugar | heart_health => true
  | _ => false
  end.

(** Step 2: sugar, for the goals low_sugar and heart_health. *)
Definition step_sugar (goal : GoalType) (sugar : option float)
    (st : Z * InsulinRisk) : Z * InsulinRisk :=
  match sugar with
  | Some s =>
      if sugar_goal goal then
        if (s <=? 5)%float then (fst st + 20, low)
        else if ((5 <? s) && (s <=? 10))%float then st
        else (fst st - 25, high)
      else st
  | None => st
  end.

(** Step 3: protein, for the goal muscle_gain. *)
Definition step_protein (goal : GoalType) (protein : option float) (score : Z) : Z :=
  match protein, goal with
  | Some p, muscle_gain =>
      if (20 <=? p)%float then score + 15
      else if ((10 <=? p) && (p <? 20))%float then score + 5
      else score - 10
  | _, _ => score
  end.

(** Step 4: calories, for the goal weight_loss; between the two
    thresholds nothing changes. *)
Definition step_calories (goal : GoalType) (calories : option float) (score : Z) : Z :=
  match calories, goal with
  | Some c, weight_loss =>
      if (c <=? 150)%float then score + 10
      else if (350 <? c)%float then score - 15
      else score
  | _, _ => score
  end.

(** Step 5. *)
Definition clamp (score : Z) : Z :=
  if score <? 0 then 0 else if 100 <? score then 100 else score.

(** Step 6: the fixed thresholds, and the explanation keyed by colour. *)
Definition color_of_score (score : Z) : Color :=
  if 75 <=? score then green else if 55 <=? score then yellow else red.

Definition explanation_of (c : Color) : string :=
  match c with
  | green => "Balanced nutrients; aligns well with your selected goal."
  | yellow => "Mixed profile; moderation advised based on your goal."
  | red => "High risk factors for your goal; consider safer option."
  end.

(** A nutrient is present when the item has a nutrient record and the
    record has the field. *)
Definition present (field : Nutrients.t -> option float) (item : ScanItem.t)
  : option float :=
  ScanItem.nutrients item ≫= field.

Definition verdict (goal : GoalType) (item : ScanItem.t) : Verdict.t :=
  let after_sugar := step_sugar goal (present Nutrients.sugar item) start in
  let score :=
    clamp (step_calories goal (present Nutrients.calories item)
             (step_protein goal (present Nutrients.protein item)
                (fst after_sugar))) in
  Verdict.mk (color_of_score score) score
    (explanation_of (color_of_score score)) (snd after_sugar).
End Reference.

(** ** Python values and exceptions

    What [json.loads] returns, what a dictionary holds and what a document
    of the store holds: dynamically typed values. [PObjectId] is the
    store's identifier type. *)
Inductive pyval :=
| PNone
| PBool (b : bool)
| PInt (z : Z)
| PFloat (f : float)
| PStr (s : string)
| PList (l : list pyval)
| PDict (d : gmap string pyval)
| PObjectId (n : N).

(** A dictionary of Python values, keyed by strings. *)
Abbreviation pydict := (gmap string pyval).

(** [type(v).__name__] *)
Definition type_name (v : pyval) : string :=
  match v with
  | PNone => "NoneType"
  | PBool _ => "bool"
  | PInt _ => "int"
  | PFloat _ => "float"
  | PStr _ => "str"
  | PList _ => "list"
  | PDict _ => "dict"
  | PObjectId _ => "ObjectId"
  end.

(** [bool(v)] : the truth value [or] and [if] test. *)
Definition truthy (v : pyval) : bool :=
  match v with
  | PNone => false
  | PBool b => b
  | PInt z => negb (z =? 0)
  | PFloat f => negb (f =? 0)%float
  | PStr s => negb (String.eqb s "")
  | PList l => match l with [] => false | _ => true end
  | PDict d => negb (bool_decide (dom d = ∅))
  | PObjectId _ => true
  end.

(** [v == 1] : [True], [1] and [1.0] are equal to [1], nothing else is. *)
Definition eq_one (v : pyval) : bool :=
  match v with
  | PBool b => b
  | PInt z => z =? 1
  | PFloat f => (f =? 1)%float
  | _ => false
  end.

(** The exceptions the handlers see: FastAPI's [HTTPException], and any
    other exception deriving from [Exception], kept as its [str()]. *)
Inductive exn :=
| HTTPException (status_code : Z) (detail : string)
| Error (message : string).

#[global] Instance exn_bind : MBind (sum exn) :=
  λ A B f m, match m with inl e => inl e | inr a => f a end.
#[global] Instance exn_ret : MRet (sum exn) := λ A a, inr a.

Definition raise {A} (e : exn) : exn + A := inl e.

(** [v.get(key, default)] : a method of dictionaries only. *)
Definition py_get (v : pyval) (key : string) (dflt : pyval) : exn + pyval :=
  match v with
  | PDict d => mret (default dflt (d !! key))
  | _ => raise (Error ("'" +:+ type_name v +:+ "' object has no attribute 'get'"))
  end.


(** ** The Python runtime

    Strings are [string]s of code units. What the program takes from the
    interpreter and its standard library is a parameter: [str.lower], which
    beyond ASCII follows the Unicode tables; [requests.utils.quote]; and
    [str()] of a value. On a string of ASCII characters [str.lower] maps
    the letters A-Z to a-z and nothing else. *)
Definition lower_char (c : ascii) : ascii :=
  let n := N_of_ascii c in
  if ((65 <=? n) && (n <=? 90))%N then ascii_of_N (n + 32) else c.

Fixpoint ascii_lower (s : string) : string :=
  match s with
  | EmptyString => EmptyString
  | String c s' => String (lower_char c) (ascii_lower s')
  end.

Fixpoint is_ascii (s : string) : bool :=
  match s with
  | EmptyString => true
  | String c s' => (N_of_ascii c <? 128)%N && is_ascii s'
  end.

Class Python := {
  lower : string -> string;
  lower_ascii : forall s, is_ascii s = true -> lower s = ascii_lower s;
  quote : string -> string;
  str : pyval -> string
}.

(** [a in t] on strings: [a] starts at some position of [t]. *)
Fixpoint str_in (a t : string) : bool :=
  String.prefix a t ||
  match t with
  | EmptyString => false
  | String _ t' => str_in a t'
  end.

(** [a or b] where [a] is an [Optional[str]] and [b] a string. *)
Definition str_or (a : option string) (b : string) : string :=
  match a with
  | Some s => if String.eqb s "" then b else s
  | None => b
  end.

(** ** main.py: [detect_allergens] *)

Section Allergens.
Context `{!Python}.

Definition detect_allergens (ingredients_text : option string)
    (user_allergies : list string) : list string :=
  let found := [] in
  match ingredients_text with
  | None => found
  | Some ingredients_text =>
      if String.eqb ingredients_text "" then found
      else
        let txt := lower ingredients_text in
        fold_left
          (fun found a => if str_in (lower a) txt then (found ++ [a])%list else found)
          user_allergies found
  end.

End Allergens.


(** ** pydantic and requests

    The field validators of pydantic and the HTTP client are libraries the
    program calls. A validator answers [None] when it refuses its input; on a
    string, a float and [None] the answer is fixed below. [get_json url] is
    [requests.get(url, timeout=6).json()] : the parsed body, or the [str()]
    of the exception the request or the parser raised. *)
Class Pydantic := {
  optional_str : pyval -> option (option string);
  optional_float : pyval -> option (option float);
  required_str : pyval -> option string;
  (** [str()] of the [ValidationError] of a model, given the keyword
      arguments of its constructor. *)
  validation_error : string -> list (string * pyval) -> string;
  required_str_str : forall s, required_str (PStr s) = Some s;
  optional_str_str : forall s, optional_str (PStr s) = Some (Some s);
  optional_str_none : optional_str PNone = Some None;
  optional_float_float : forall f, optional_float (PFloat f) = Some (Some f);
  optional_float_none : optional_float PNone = Some None
}.

Class Requests := {
  get_json : string -> string + pyval
}.

Module Alternative.
Record t := mk {
  name : string;
  brand : option string;
  image_url : option string;
  barcode : option string
}.
End Alternative.

Section Models.
Context `{!Pydantic}.

(** A field of a model built from a dictionary: absent from the dictionary,
    it takes its default, [None]; present, its value is validated. *)
Definition float_field (d : pydict) (key : string) : option (option float) :=
  match d !! key with
  | Some v => optional_float v
  | None => Some None
  end.

(** The [Nutrients] model built from a dictionary. *)
Definition Nutrients_validate (d : pydict) : option Nutrients.t :=
  calories ← float_field d "calories";
  protein ← float_field d "protein";
  carbs ← float_field d "carbs";
  sugar ← float_field d "sugar";
  fat ← float_field d "fat";
  sat_fat ← float_field d "sat_fat";
  fiber ← float_field d "fiber";
  sodium ← float_field d "sodium";
  Some (Nutrients.mk calories protein carbs sugar fat sat_fat fiber sodium).

(** [ScanItem(name=..., brand=..., barcode=..., image_url=...,
    ingredients_text=..., nutrients={...}, processing_level=...)] : every
    field is validated, and one [ValidationError] reports the refusals. *)
Definition ScanItem_new (name brand barcode image_url ingredients_text : pyval)
    (nutrients : pydict) (processing_level : pyval) : exn + ScanItem.t :=
  let validated :=
    name' ← optional_str name;
    brand' ← optional_str brand;
    barcode' ← optional_str barcode;
    image_url' ← optional_str image_url;
    ingredients_text' ← optional_str ingredients_text;
    nutrients' ← Nutrients_validate nutrients;
    processing_level' ← optional_str processing_level;
    Some (ScanItem.mk name' brand' barcode' image_url' ingredients_text'
            (Some nutrients') processing_level') in
  match validated with
  | Some item => mret item
  | None =>
      raise (Error (validation_error "ScanItem"
        [("name", name); ("brand", brand); ("barcode", barcode);
         ("image_url", image_url); ("ingredients_text", ingredients_text);
         ("nutrients", PDict nutrients); ("processing_level", processing_level)]))
  end.

(** [Alternative(name=..., brand=..., image_url=..., barcode=...)] *)
Definition Alternative_new (name brand image_url barcode : pyval)
  : exn + Alternative.t :=
  let validated :=
    name' ← required_str name;
    brand' ← optional_str brand;
    image_url' ← optional_str image_url;
    barcode' ← optional_str barcode;
    Some (Alternative.mk name' brand' image_url' barcode') in
  match validated with
  | Some alt => mret alt
  | None =>
      raise (Error (validation_error "Alternative"
        [("name", name); ("brand", brand); ("image_url", image_url);
         ("barcode", barcode)]))
  end.

End Models.

(** ** main.py: [find_alternatives] *)

(** [v[:5]], as the list the [for] loop runs over: a slice of a list, or the
    characters of a slice of a string; other values have no slices (for a
    dictionary the exception is a [KeyError] from Python 3.12 on; the caller
    drops it either way). *)
Definition first_five (v : pyval) : exn + list pyval :=
  match v with
  | PList l => mret (take 5 l)
  | PStr s => mret ((fun c => PStr (String c "")) <$> take 5 (list_ascii_of_string s))
  | PDict _ => raise (Error "unhashable type: 'slice'")
  | _ => raise (Error ("'" +:+ type_name v +:+ "' object is not subscriptable"))
  end.

Section Alternatives.
Context `{!Python, !Pydantic, !Requests}.

Definition search_url (query : string) : string :=
  "https://world.openfoodfacts.org/cgi/search.pl?action=process&search_terms="
  +:+ quote query
  +:+ "&json=1&page_size=5&tagtype_0=labels&tag_contains_0=contains&tag_0=organic".

(** The body of the loop: the [Alternative] built from one product. *)
Definition alternative_of (p : pyval) : exn + Alternative.t :=
  product_name ← py_get p "product_name" PNone;
  let name := if truthy product_name then product_name else PStr "Alternative" in
  brand ← py_get p "brands" PNone;
  image_front_small_url ← py_get p "image_front_small_url" PNone;
  image_url ← (if truthy image_front_small_url then mret image_front_small_url
               else py_get p "image_url" PNone);
  barcode ← py_get p "code" PNone;
  Alternative_new name brand image_url barcode.

(** The loop appends to [results] one product after the other; an exception
    leaves [results] with what was appended before it. *)
Fixpoint append_alternatives (products : list pyval) (results : list Alternative.t)
  : list Alternative.t * option exn :=
  match products with
  | [] => (results, None)
  | p :: products' =>
      match alternative_of p with
      | inr alt => append_alternatives products' (results ++ [alt])%list
      | inl e => (results, Some e)
      end
  end.

Definition find_alternatives (item : ScanItem.t) (goal : GoalType)
  : list Alternative.t :=
  let results := [] in
  let query := str_or (ScanItem.brand item) (str_or (ScanItem.name item) "healthy") in
  let url := search_url query in
  match get_json url with
  | inr data =>
      match py_get data "products" (PList []) ≫= first_five with
      | inr products => fst (append_alternatives products results)
      | inl _ => results
      end
  | inl _ => results
  end.

(** The products the loop of [find_alternatives] runs over, when the
    request and the parser succeed and the body has a list to slice. *)
Definition searched_products (item : ScanItem.t) : exn + list pyval :=
  match get_json (search_url
          (str_or (ScanItem.brand item) (str_or (ScanItem.name item) "healthy"))) with
  | inr data => py_get data "products" (PList []) ≫= first_five
  | inl message => inl (Error message)
  end.

End Alternatives.

(** ** main.py: [barcode_lookup] *)

Definition OPENFOODFACTS_API : string :=
  "https://world.openfoodfacts.org/api/v2/product/".

Section Barcode.
Context `{!Pydantic, !Requests}.

(** [p.get("nutriments", {}).get(key)] *)
Definition nutriment (p : pyval) (key : string) : exn + pyval :=
  nutriments ← py_get p "nutriments" (PDict ∅);
  py_get nutriments key PNone.

(** The [try] block. *)
Definition barcode_lookup_body (code : string) : exn + ScanItem.t :=
  data ← match get_json (OPENFOODFACTS_API +:+ code +:+ ".json") with
         | inr data => mret data
         | inl message => raise (Error message)
         end;
  status ← py_get data "status" PNone;
  if negb (eq_one status) then raise (HTTPException 404 "Product not found")
  else
    p ← py_get data "product" (PDict ∅);
    name ← py_get p "product_name" PNone;
    brand ← py_get p "brands" PNone;
    barcode ← py_get p "code" PNone;
    image_front_small_url ← py_get p "image_front_small_url" PNone;
    image_url ← (if truthy image_front_small_url then mret image_front_small_url
                 else py_get p "image_url" PNone);
    ingredients_text ← py_get p "ingredients_text" PNone;
    calories ← nutriment p "energy-kcal_100g";
    protein ← nutriment p "proteins_100g";
    carbs ← nutriment p "carbohydrates_100g";
    sugar ← nutriment p "sugars_100g";
    fat ← nutriment p "fat_100g";
    sat_fat ← nutriment p "saturated-fat_100g";
    fiber ← nutriment p "fiber_100g";
    sodium ← nutriment p "sodium_100g";
    processing_level ← py_get p "nova_group" PNone;
    ScanItem_new name brand barcode image_url ingredients_text
      (list_to_map
         [("calories", calories); ("protein", protein); ("carbs", carbs);
          ("sugar", sugar); ("fat", fat); ("sat_fat", sat_fat);
          ("fiber", fiber); ("sodium", sodium)])
      processing_level.

(** [except HTTPException: raise] ;
    [except Exception as e: raise HTTPException(status_code=500, detail=str(e))] *)
Definition barcode_lookup (code : string) : exn + ScanItem.t :=
  match barcode_lookup_body code with
  | inr item => inr item
  | inl (HTTPException status_code detail) => inl (HTTPException status_code detail)
  | inl (Error message) => inl (HTTPException 500 message)
  end.

End Barcode.


(** ** schemas.py: the stored models and their dumps *)

Module UserProfile.
Record t := mk {
  user_id : string;
  name : option string;
  goal : GoalType;
  allergies : list string;
  sensitivities : list string;
  language : LanguageCode
}.
(** [UserProfile(user_id=...)] : the other fields at their defaults. *)
Definition new (user_id : string) : t := mk user_id None balanced [] [] en.
End UserProfile.

Module ScanRecord.
Record t := mk {
  user_id : string;
  goal : GoalType;
  item : ScanItem.t;
  verdict : Verdict.t;
  allergens_found : list string;
  alternatives : list Alternative.t
}.
End ScanRecord.

(** [model_dump()] : a model as a dictionary of plain values. *)
Module Dump.
Definition optional {A} (f : A -> pyval) (o : option A) : pyval :=
  match o with
  | Some a => f a
  | None => PNone
  end.

Definition strings (l : list string) : pyval := PList (PStr <$> l).

Definition goal (g : GoalType) : pyval :=
  PStr match g with
       | balanced => "balanced"
       | weight_loss => "weight_loss"
       | muscle_gain => "muscle_gain"
       | heart_health => "heart_health"
       | low_sugar => "low_sugar"
       end.

Definition language (l : LanguageCode) : pyval :=
  PStr match l with
       | en => "en"
       | hi => "hi"
       | mr => "mr"
       | hinglish => "hinglish"
       end.

Definition color (c : Color) : pyval :=
  PStr match c with
       | green => "green"
       | yellow => "yellow"
       | red => "red"
       end.

Definition insulin_risk (r : InsulinRisk) : pyval :=
  PStr match r with
       | low => "low"
       | medium => "medium"
       | high => "high"
       end.

Definition nutrients (n : Nutrients.t) : pydict :=
  list_to_map
    [("calories", optional PFloat (Nutrients.calories n));
     ("protein", optional PFloat (Nutrients.protein n));
     ("carbs", optional PFloat (Nutrients.carbs n));
     ("sugar", optional PFloat (Nutrients.sugar n));
     ("fat", optional PFloat (Nutrients.fat n));
     ("sat_fat", optional PFloat (Nutrients.sat_fat n));
     ("fiber", optional PFloat (Nutrients.fiber n));
     ("sodium", optional PFloat (Nutrients.sodium n))].

Definition scan_item (i : ScanItem.t) : pydict :=
  list_to_map
    [("name", optional PStr (ScanItem.name i));
     ("brand", optional PStr (ScanItem.brand i));
     ("barcode", optional PStr (ScanItem.barcode i));
     ("image_url", optional PStr (ScanItem.image_url i));
     ("ingredients_text", optional PStr (ScanItem.ingredients_text i));
     ("nutrients", optional (fun n => PDict (nutrients n)) (ScanItem.nutrients i));
     ("processing_level", optional PStr (ScanItem.processing_level i))].

Definition verdict (v : Verdict.t) : pydict :=
  list_to_map
    [("color", color (Verdict.color v));
     ("score", PInt (Verdict.score v));
     ("explanation", PStr (Verdict.explanation v));
     ("insulin_risk", insulin_risk (Verdict.insulin_risk v))].

Definition alternative (a : Alternative.t) : pydict :=
  list_to_map
    [("name", PStr (Alternative.name a));
     ("brand", optional PStr (Alternative.brand a));
     ("image_url", optional PStr (Alternative.image_url a));
     ("barcode", optional PStr (Alternative.barcode a))].

Definition scan_record (r : ScanRecord.t) : pydict :=
  list_to_map
    [("user_id", PStr (ScanRecord.user_id r));
     ("goal", goal (ScanRecord.goal r));
     ("item", PDict (scan_item (ScanRecord.item r)));
     ("verdict", PDict (verdict (ScanRecord.verdict r)));
     ("allergens_found", strings (ScanRecord.allergens_found r));
     ("alternatives", PList ((fun a => PDict (alternative a)) <$> ScanRecord.alternatives r))].

Definition user_profile (p : UserProfile.t) : pydict :=
  list_to_map
    [("user_id", PStr (UserProfile.user_id p));
     ("name", optional PStr (UserProfile.name p));
     ("goal", goal (UserProfile.goal p));
     ("allergies", strings (UserProfile.allergies p));
     ("sensitivities", strings (UserProfile.sensitivities p));
     ("language", language (UserProfile.language p))].
End Dump.

(** ** The document store *)

(** Modelled from the spec: [database.py], with the [db] handle,
    [create_document] and [get_documents], is not among the source files.
    Section 6 describes the collaborator as a document store with
    [create_document(collection, record) -> id] and
    [get_documents(collection, filter, limit) -> list], and the glossary as a
    persistence service addressed by named collections and filter-based
    queries. The model: named collections of documents in insertion order,
    each stored under a fresh identifier that a query returns as the
    document's ["_id"]; a filter is a list of fields with the string each
    must hold; [limit] bounds the number of documents returned. *)
Module Database.
Record t := mk {
  collections : gmap string (list (N * pydict));
  next_id : N
}.

Definition empty : t := mk ∅ 0%N.

Definition collection (db : t) (collection_name : string) : list (N * pydict) :=
  default [] (collections db !! collection_name).

(** A stored document as a query returns it. *)
Definition document (entry : N * pydict) : pydict :=
  <["_id" := PObjectId entry.1]> entry.2.

Definition matches (filter_dict : list (string * string)) (doc : pydict) : bool :=
  forallb
    (fun kv => match doc !! kv.1 with
               | Some (PStr s) => String.eqb s kv.2
               | _ => false
               end)
    filter_dict.

Definition create_document `{!Python} (collection_name : string) (data : pydict)
    (db : t) : string * t :=
  let oid := next_id db in
  (str (PObjectId oid),
   mk (<[collection_name := (collection db collection_name ++ [(oid, data)])%list]>
         (collections db))
      (N.succ oid)).

Definition get_documents (collection_name : string)
    (filter_dict : list (string * string)) (limit : nat) (db : t) : list pydict :=
  take limit
    (List.filter (matches filter_dict) (document <$> collection db collection_name)).
End Database.

(** ** main.py: the handlers that write to the store *)

Module VerdictRequest.
Record t := mk {
  user_id : string;
  goal : GoalType;
  item : ScanItem.t
}.
End VerdictRequest.

Module ProfileRequest.
Record t := mk {
  user_id : string
}.
End ProfileRequest.

(** The dictionary [generate_verdict] returns. *)
Module VerdictResponse.
Record t := mk {
  scan_id : string;
  verdict : Verdict.t;
  allergens : list string;
  alternatives : list Alternative.t
}.
End VerdictResponse.

(** The dictionary [scan_image] returns. *)
Module ImageResponse.
Record t := mk {
  scan_id : string;
  item : ScanItem.t;
  verdict : Verdict.t;
  allergens : list string;
  alternatives : list Alternative.t
}.
End ImageResponse.

(** An uploaded file, as the framework hands it to the handler. *)
Module UploadFile.
Record t := mk {
  filename : option string;
  content_type : option string;
  content : list byte
}.
End UploadFile.

Section Handlers.
Context `{!Python, !Pydantic, !Requests}.

Definition generate_verdict (req : VerdictRequest.t) (db : Database.t)
  : VerdictResponse.t * Database.t :=
  let verdict := compute_verdict (VerdictRequest.goal req) (VerdictRequest.item req) in
  let allergens :=
    detect_allergens (ScanItem.ingredients_text (VerdictRequest.item req)) [] in
  let alternatives := find_alternatives (VerdictRequest.item req) (VerdictRequest.goal req) in
  let record :=
    ScanRecord.mk (VerdictRequest.user_id req) (VerdictRequest.goal req)
      (VerdictRequest.item req) verdict allergens alternatives in
  let '(scan_id, db) :=
    Database.create_document "scanrecord" (Dump.scan_record record) db in
  (VerdictResponse.mk scan_id verdict allergens alternatives, db).

Definition get_or_create_profile (req : ProfileRequest.t) (db : Database.t)
  : exn + (pydict * Database.t) :=
  let docs :=
    Database.get_documents "userprofile" [("user_id", ProfileRequest.user_id req)] 1 db in
  match docs with
  | doc :: _ =>
      match doc !! "_id" with
      | Some _id => mret (<["_id" := PStr (str _id)]> doc, db)
      | None => raise (Error "'_id'")
      end
  | [] =>
      let profile := UserProfile.new (ProfileRequest.user_id req) in
      let '(_id, db) :=
        Database.create_document "userprofile" (Dump.user_profile profile) db in
      mret (Dump.user_profile profile ∪ {["_id" := PStr _id]}, db)
  end.

(** The stub item: the integers of the nutrient dictionary are validated into
    floats. *)
Definition detected_meal : ScanItem.t :=
  ScanItem.mk (Some "Detected Meal") None None None (Some "rice, chicken, spices")
    (Some (Nutrients.mk (Some 250%float) (Some 18%float) (Some 30%float)
             (Some 2%float) None None None None))
    None.

Definition scan_image (user_id : string) (goal : GoalType) (file : UploadFile.t)
    (db : Database.t) : ImageResponse.t * Database.t :=
  let item := detected_meal in
  let verdict := compute_verdict goal item in
  let allergens := detect_allergens (ScanItem.ingredients_text item) [] in
  let alternatives := find_alternatives item goal in
  let record := ScanRecord.mk user_id goal item verdict allergens alternatives in
  let '(scan_id, db) :=
    Database.create_document "scanrecord" (Dump.scan_record record) db in
  (ImageResponse.mk scan_id item verdict allergens alternatives, db).

End Handlers.


(** ** A runtime for the examples

    Stand-ins for the interpreter, pydantic and the network on which the
    definitions above evaluate: [str.lower] and [quote] as they are on
    strings of ASCII letters, an identifier printed as its number, and
    validators that accept strings, floats, small natural numbers and
    [None]. *)
Module Examples.

Definition python : Python :=
  Build_Python ascii_lower (fun s _ => eq_refl) (fun s => s)
    (fun v => match v with
              | PObjectId n => pretty n
              | PStr s => s
              | _ => type_name v
              end).

Definition optional_str (v : pyval) : option (option string) :=
  match v with
  | PNone => Some None
  | PStr s => Some (Some s)
  | _ => None
  end.

Definition optional_float (v : pyval) : option (option float) :=
  match v with
  | PNone => Some None
  | PFloat f => Some (Some f)
  | PInt z => if (0 <=? z) && (z <? 2 ^ 53) then Some (Some (of_uint63 (Uint63.of_Z z)))
              else None
  | _ => None
  end.

Definition required_str (v : pyval) : option string :=
  match v with
  | PStr s => Some s
  | _ => None
  end.

Definition pydantic : Pydantic :=
  Build_Pydantic optional_str optional_float required_str
    (fun model _ => "validation error for " +:+ model)
    (fun _ => eq_refl) (fun _ => eq_refl) eq_refl (fun _ => eq_refl) eq_refl.

(** A network that fails every request, and one that answers every request
    with the same body. *)
Definition offline : Requests := Build_Requests (fun _ => inl "Connection refused").
Definition answering (body : pyval) : Requests := Build_Requests (fun _ => inr body).

Definition dict (l : list (string * pyval)) : pyval := PDict (list_to_map l).

(** A store in which the profile of user u1 lists peanut as an allergy, and
    a request of that user for an item made of peanuts. *)
Definition peanut_store : Database.t :=
  Database.mk
    {[ "userprofile" :=
         [(0%N, Dump.user_profile (UserProfile.mk "u1" None balanced ["peanut"] [] en))] ]}
    1%N.

Definition peanut_request : VerdictRequest.t :=
  VerdictRequest.mk "u1" balanced
    (ScanItem.mk (Some "Peanut butter") None None None (Some "roasted peanuts, salt")
       None None).
(** A product found under another code than the one it carries, with an empty
    small front image and a full-size one. *)
Definition alpro_body : pyval :=
  dict [("status", PInt 1);
        ("product",
         dict [("brands", PStr "Alpro"); ("code", PStr "54");
               ("image_front_small_url", PStr "");
               ("image_url", PStr "https://images.example/54.jpg")])].

Definition alpro_item : ScanItem.t :=
  ScanItem.mk None (Some "Alpro") (Some "54") (Some "https://images.example/54.jpg")
    None (Some Nutrients.default) None.
(** A search result whose third product is [null]. *)
Definition partial_body : pyval :=
  dict [("products",
         PList [dict [("product_name", PStr "Oat drink"); ("code", PStr "42")];
                dict [("product_name", PStr "")];
                PNone;
                dict [("product_name", PStr "Muesli")]])].
End Examples.


(** The external per-100g nutrient key each nutrient field is read from. *)
Definition nutriment_keys : list (string * (Nutrients.t -> option float)) :=
  [("energy-kcal_100g", Nutrients.calories);
   ("proteins_100g", Nutrients.protein);
   ("carbohydrates_100g", Nutrients.carbs);
   ("sugars_100g", Nutrients.sugar);
   ("fat_100g", Nutrients.fat);
   ("saturated-fat_100g", Nutrients.sat_fat);
   ("fiber_100g", Nutrients.fiber);
   ("sodium_100g", Nutrients.sodium)].


(** ** What a goal reads, and what it can answer *)

(** The nutrient the blocks of [compute_verdict] read for a goal: none of
    them tests the goal balanced. *)
Definition goal_nutrient (goal : GoalType) : Nutrients.t -> option float :=
  match goal with
  | balanced => fun _ => None
  | weight_loss => Nutrients.calories
  | muscle_gain => Nutrients.protein
  | heart_health | low_sugar => Nutrients.sugar
  end.

(** The verdicts a goal can receive: score, colour and insulin risk. *)
Definition outcomes (goal : GoalType) : list (Z * Color * InsulinRisk) :=
  match goal with
  | balanced => [(70, yellow, medium)]
  | weight_loss => [(80, green, medium); (70, yellow, medium); (55, yellow, medium)]
  | muscle_gain =>
      [(85, green, medium); (75, green, medium); (70, yellow, medium);
       (60, yellow, medium)]
  | heart_health | low_sugar => [(90, green, low); (70, yellow, medium); (45, red, high)]
  end.

Definition outcome (v : Verdict.t) : Z * Color * InsulinRisk :=
  (Verdict.score v, Verdict.color v, Verdict.insulin_risk v).

(** ** What the [try] block of [find_alternatives] raises *)

Section SearchFailure.
Context `{!Python, !Pydantic, !Requests}.

(** The exception that ends the [try] block of [find_alternatives], if any:
    raised by the request, the parser or the reading of the product list, or
    by a product inside the loop. The [except] clause drops it. *)
Definition search_failure (item : ScanItem.t) : option exn :=
  match searched_products item with
  | inl e => Some e
  | inr products => snd (append_alternatives products [])
  end.

End SearchFailure.

(** ** Text as UTF-8

    The strings written in [main.py] with characters beyond ASCII stand here
    as their UTF-8 bytes. A character is a lead byte followed by its
    continuation bytes (10xxxxxx); a slice [s[:n]] keeps the first [n]
    characters. *)
Definition is_continuation (c : ascii) : bool :=
  ((128 <=? N_of_ascii c) && (N_of_ascii c <? 192))%N.

(** [len(s)] *)
Fixpoint utf8_length (s : string) : nat :=
  match s with
  | EmptyString => 0%nat
  | String c s' => if is_continuation c then utf8_length s' else S (utf8_length s')
  end.

(** [s[:n]] *)
Fixpoint utf8_take (n : nat) (s : string) : string :=
  match s with
  | EmptyString => EmptyString
  | String c s' =>
      if is_continuation c then String c (utf8_take n s')
      else match n with
           | O => EmptyString
           | S n' => String c (utf8_take n' s')
           end
  end.

(** ** main.py: [test_database] *)

(** The [db] handle that [main.py] imports, as [test_database] uses it: an
    object that may have a [name] attribute, with a method
    [list_collection_names] that returns the names or raises. *)
Module Db.
Record t := mk {
  name : option string;
  list_collection_names : string + list string
}.
End Db.

(** The dictionary [test_database] fills in, with the assignments made to
    its keys. *)
Module TestResponse.
Record t := mk {
  backend : string;
  database : string;
  database_url : option string;
  database_name : option string;
  connection_status : string;
  collections : list string
}.
End TestResponse.



(** The score and the insulin risk before the clamp, as a function of the
    goal and of the one nutrient the goal reads. *)
Definition graded (goal : GoalType) (x : option float) : Z * InsulinRisk :=
  match x, goal with
  | None, _ => (70, medium)
  | Some _, balanced => (70, medium)
  | Some c, weight_loss =>
      (if (c <=? 150)%float then 80 else if (350 <? c)%float then 55 else 70, medium)
  | Some p, muscle_gain =>
      (if (20 <=? p)%float then 85 else if (10 <=? p)%float then 75 else 60, medium)
  | Some s, (heart_health | low_sugar) =>
      if (s <=? 5)%float then (90, low)
      else if (s <=? 10)%float then (70, medium)
      else (45, high)
  end.

(** * Properties *)

(** ** Order of binary64 values *)

(** Swapping the operands of a comparison swaps its outcome. *)
Lemma SFcompare_swap (a b : spec_float) :
  SFcompare b a = CompOpp <$> SFcompare a b.
Proof.
  destruct a as [sa|sa| |sa ma ea], b as [sb|sb| |sb mb eb];
    cbn -[Pos.compare Z.compare];
    try destruct sa; try destruct sb; try reflexivity.
  all: rewrite (Z.compare_antisym ea eb); destruct (ea ?= eb)%Z;
    cbn -[Pos.compare]; try reflexivity.
  all: change (PosDef.Pos.compare_cont Eq mb ma) with (Pos.compare mb ma);
    rewrite (Pos.compare_antisym ma mb); reflexivity.
Qed.

(** Only NaN is unordered. *)
Lemma SFcompare_None (a b : spec_float) :
  SFcompare a b = None -> a = S754_nan \/ b = S754_nan.
Proof.
  destruct a, b; simpl; intros H; try discriminate; auto.
Qed.

(** [x] is not below [y], yet it is ordered (it is below some [z]): when [y]
    is not NaN, [y < x]. *)
Lemma leb_false_ltb (x y z : float) :
  (x <=? y)%float = false -> (x <=? z)%float = true -> (y <=? y)%float = true ->
  (y <? x)%float = true.
Proof.
  rewrite !leb_spec, ltb_spec. unfold SFleb, SFltb.
  intros Hxy Hxz Hy.
  rewrite (SFcompare_swap (Prim2SF x) (Prim2SF y)).
  destruct (SFcompare (Prim2SF x) (Prim2SF y)) as [[]|] eqn:E;
    try discriminate; try reflexivity.
  apply SFcompare_None in E as [E|E].
  - rewrite E in Hxz. discriminate.
  - rewrite E in Hy. discriminate.
Qed.

(** The mirror image: [y] is not below [x], yet [z <= x]. *)
Lemma leb_false_gtb (x y z : float) :
  (y <=? x)%float = false -> (z <=? x)%float = true -> (y <=? y)%float = true ->
  (x <? y)%float = true.
Proof.
  rewrite !leb_spec, ltb_spec. unfold SFleb, SFltb.
  intros Hyx Hzx Hy.
  rewrite (SFcompare_swap (Prim2SF y) (Prim2SF x)).
  destruct (SFcompare (Prim2SF y) (Prim2SF x)) as [[]|] eqn:E;
    try discriminate; try reflexivity.
  apply SFcompare_None in E as [E|E].
  - rewrite E in Hy. discriminate.
  - rewrite E in Hzx. destruct (Prim2SF z); discriminate.
Qed.

(** ** The verdict engine *)

Example low_sugar_3 :
  let v := compute_verdict low_sugar (only_sugar 3) in
  (Verdict.score v, Verdict.color v, Verdict.insulin_risk v) = (90, green, low).
Proof. vm_compute. reflexivity. Qed.

Example low_sugar_15 :
  let v := compute_verdict low_sugar (only_sugar 15) in
  (Verdict.score v, Verdict.color v, Verdict.insulin_risk v) = (45, red, high).
Proof. vm_compute. reflexivity. Qed.

Example muscle_gain_25 :
  let v := compute_verdict muscle_gain (only_protein 25) in
  (Verdict.score v, Verdict.color v) = (85, green).
Proof. vm_compute. reflexivity. Qed.

Example weight_loss_100_400 :
  let v := compute_verdict weight_loss (only_calories 100) in
  let w := compute_verdict weight_loss (only_calories 400) in
  (Verdict.score v, Verdict.color v, Verdict.score w, Verdict.color w)
  = (80, green, 55, yellow).
Proof. vm_compute. reflexivity. Qed.

Example sugar_nan_is_high :
  let v := compute_verdict heart_health (only_sugar nan) in
  (Verdict.score v, Verdict.insulin_risk v) = (45, high).
Proof. vm_compute. reflexivity. Qed.

Lemma present_nutrient (field : Nutrients.t -> option float) (item : ScanItem.t) :
  Reference.present field item = nutrient field item.
Proof. unfold Reference.present, nutrient. destruct (ScanItem.nutrients item); reflexivity. Qed.

(** Step 2 of the reference is the first block of the code: between the two
    thresholds the code's [score += 0; insulin_risk = "medium"] leaves the
    state as it was. *)
Lemma sugar_block_reference (goal : GoalType) (sugar : option float) :
  match sugar with
  | Some sugar =>
      if decide (goal ∈ [low_sugar; heart_health]) then
        if (sugar <=? 5)%float then (70 + 20, low)
        else if (sugar <=? 10)%float then (70 + 0, medium)
        else (70 - 25, high)
      else (70, medium)
  | None => (70, medium)
  end = Reference.step_sugar goal sugar Reference.start.
Proof.
  destruct sugar as [s|]; [|reflexivity].
  unfold Reference.step_sugar, Reference.start.
  destruct goal; cbn -[PrimFloat.leb PrimFloat.ltb]; try reflexivity.
  all: destruct (s <=? 5)%float eqn:E5; [reflexivity|].
  all: destruct (s <=? 10)%float eqn:E10;
    [rewrite (leb_false_ltb s 5 10 E5 E10 eq_refl)|rewrite andb_false_r]; reflexivity.
Qed.

Lemma protein_block_reference (goal : GoalType) (protein : option float) (score : Z) :
  match protein with
  | Some protein =>
      if decide (goal = muscle_gain) then
        if (20 <=? protein)%float then score + 15
        else if (10 <=? protein)%float then score + 5
        else score - 10
      else score
  | None => score
  end = Reference.step_protein goal protein score.
Proof.
  destruct protein as [p|]; [|reflexivity].
  unfold Reference.step_protein.
  destruct goal; cbn -[PrimFloat.leb PrimFloat.ltb]; try reflexivity.
  destruct (20 <=? p)%float eqn:E20; [reflexivity|].
  destruct (10 <=? p)%float eqn:E10; [|reflexivity].
  rewrite (leb_false_gtb p 20 10 E20 E10 eq_refl). reflexivity.
Qed.

Lemma calories_block_reference (goal : GoalType) (calories : option float) (score : Z) :
  match calories with
  | Some c =>
      if decide (goal = weight_loss) then
        if (c <=? 150)%float then score + 10
        else if (350 <? c)%float then score - 15
        else score
      else score
  | None => score
  end = Reference.step_calories goal calories score.
Proof.
  destruct calories as [c|]; [|reflexivity].
  destruct goal; reflexivity.
Qed.

Lemma score_and_risk_reference (goal : GoalType) (item : ScanItem.t) :
  score_and_risk goal item =
  let after_sugar :=
    Reference.step_sugar goal (Reference.present Nutrients.sugar item) Reference.start in
  (Reference.step_calories goal (Reference.present Nutrients.calories item)
     (Reference.step_protein goal (Reference.present Nutrients.protein item)
        (fst after_sugar)),
   snd after_sugar).
Proof.
  rewrite !present_nutrient. unfold score_and_risk.
  rewrite (sugar_block_reference goal (nutrient Nutrients.sugar item)).
  destruct (Reference.step_sugar _ _ _) as [score risk]. cbn [fst snd].
  rewrite protein_block_reference, calories_block_reference. reflexivity.
Qed.

Lemma clamp_max_min (score : Z) : Z.max 0 (Z.min 100 score) = Reference.clamp score.
Proof.
  unfold Reference.clamp.
  destruct (Z.ltb_spec score 0), (Z.ltb_spec 100 score); lia.
Qed.

(** C1. For every goal and every item [compute_verdict] returns the verdict
    of the reference algorithm of section 4.1: start from 70 and medium; the
    sugar step for low_sugar and heart_health (at most 5: +20 and low; above
    5 and at most 10: unchanged; otherwise -25 and high); the protein step
    for muscle_gain (at least 20: +15; at least 10 and below 20: +5;
    otherwise -10); the calorie step for weight_loss (at most 150: +10; above
    350: -15; otherwise unchanged); the clamp to [0,100]; the colour by the
    fixed thresholds; and the insulin risk of the sugar step, which the
    protein and calorie steps do not touch. *)
Theorem compute_verdict_reference (goal : GoalType) (item : ScanItem.t) :
  compute_verdict goal item = Reference.verdict goal item.
Proof.
  unfold compute_verdict, Reference.verdict.
  rewrite score_and_risk_reference. cbv zeta.
  destruct (Reference.step_sugar _ _ _) as [score risk]. cbn [fst snd].
  rewrite clamp_max_min.
  set (s := Reference.clamp _).
  unfold Reference.color_of_score.
  destruct (75 <=? s); [reflexivity|].
  destruct (55 <=? s); reflexivity.
Qed.


(** C2. [compute_verdict] is a function of its two arguments alone, defined
    on every goal and item; on an item with no nutrient record, or with a
    record whose every field is absent, it returns score 70, yellow and
    medium, whatever the goal. *)
Theorem compute_verdict_nutrients_absent (goal : GoalType) (item : ScanItem.t) :
  nutrients_absent item ->
  compute_verdict goal item =
  Verdict.mk yellow 70 "Mixed profile; moderation advised based on your goal." medium.
Proof.
  intros Habsent. unfold compute_verdict, score_and_risk, nutrient.
  destruct Habsent as [-> | ->]; reflexivity.
Qed.

Lemma compute_verdict_nutrients_absent_witness :
  nutrients_absent (item_with Nutrients.default) /\
  compute_verdict weight_loss (item_with Nutrients.default) =
  Verdict.mk yellow 70 "Mixed profile; moderation advised based on your goal." medium.
Proof.
  split.
  - right. reflexivity.
  - apply (compute_verdict_nutrients_absent weight_loss (item_with Nutrients.default)).
    right. reflexivity.
Defined.

Lemma compute_verdict_score (goal : GoalType) (item : ScanItem.t) :
  Verdict.score (compute_verdict goal item) =
  Z.max 0 (Z.min 100 (fst (score_and_risk goal item))).
Proof.
  unfold compute_verdict. destruct (score_and_risk goal item). reflexivity.
Qed.

Lemma compute_verdict_color (goal : GoalType) (item : ScanItem.t) :
  Verdict.color (compute_verdict goal item) =
  Reference.color_of_score (Verdict.score (compute_verdict goal item)).
Proof.
  unfold compute_verdict. destruct (score_and_risk goal item). reflexivity.
Qed.

Lemma color_of_score_cases (s : Z) :
  (Reference.color_of_score s = green <-> 75 <= s) /\
  (Reference.color_of_score s = yellow <-> 55 <= s < 75) /\
  (Reference.color_of_score s = red <-> s < 55).
Proof.
  unfold Reference.color_of_score.
  destruct (Z.leb_spec 75 s), (Z.leb_spec 55 s);
    repeat split; intros; try discriminate; try lia; reflexivity.
Qed.

(** C3. The verdict's score lies in [0,100], as the [Verdict] model demands,
    and its colour is the function of the score the thresholds fix: green
    from 75 up, yellow from 55 up to 74, red below 55. *)
Theorem compute_verdict_score_color (goal : GoalType) (item : ScanItem.t) :
  let v := compute_verdict goal item in
  Verdict.valid v /\
  (Verdict.color v = green <-> 75 <= Verdict.score v) /\
  (Verdict.color v = yellow <-> 55 <= Verdict.score v < 75) /\
  (Verdict.color v = red <-> Verdict.score v < 55).
Proof.
  cbv zeta. split.
  - unfold Verdict.valid. rewrite compute_verdict_score. lia.
  - rewrite compute_verdict_color. apply color_of_score_cases.
Qed.

(** The three blocks test three different goals: whatever the item holds,
    the score before the clamp is the base plus one of the adjustments. *)
Lemma score_and_risk_one_adjustment (goal : GoalType) (item : ScanItem.t) :
  fst (score_and_risk goal item) - 70 ∈ adjustments.
Proof.
  rewrite score_and_risk_reference. cbv zeta. cbn [fst].
  unfold Reference.step_sugar, Reference.step_protein, Reference.step_calories.
  destruct (Reference.present Nutrients.sugar item) as [s|],
           (Reference.present Nutrients.protein item) as [p|],
           (Reference.present Nutrients.calories item) as [c|];
    destruct goal; cbn -[PrimFloat.leb PrimFloat.ltb adjustments];
    repeat match goal with
           | |- context [if ?b then _ else _] => destruct b
           end;
    unfold adjustments; repeat constructor.
Qed.

(** C10. Before the clamp the score already lies in [45,90]: the three
    blocks are guarded by different goals, so the base 70 receives one
    adjustment at most. The clamp leaves it as it is, and so the score of
    the verdict lies in [45,90] too. *)
Theorem compute_verdict_clamp_idle (goal : GoalType) (item : ScanItem.t) :
  let raw := fst (score_and_risk goal item) in
  45 <= raw <= 90 /\
  Z.max 0 (Z.min 100 raw) = raw /\
  Verdict.score (compute_verdict goal item) = raw /\
  45 <= Verdict.score (compute_verdict goal item) <= 90.
Proof.
  cbv zeta. rewrite compute_verdict_score.
  assert (H : 45 <= fst (score_and_risk goal item) <= 90).
  { pose proof (score_and_risk_one_adjustment goal item) as Hadj.
    unfold adjustments in Hadj.
    repeat (apply elem_of_cons in Hadj as [Hadj|Hadj]; [lia|]).
    apply elem_of_nil in Hadj. contradiction. }
  lia.
Qed.

(** ** The allergen detector *)

Lemma prefix_spec (a t : string) :
  String.prefix a t = true <-> exists post, t = a +:+ post.
Proof.
  revert t. induction a as [|c a IH]; intros t.
  - split; [intros _; exists t; reflexivity | intros _; destruct t; reflexivity].
  - destruct t as [|d t]; simpl.
    + split; [discriminate | intros [post Hpost]; discriminate].
    + destruct (ascii_dec c d) as [->|Hne].
      * rewrite IH. split; intros [post Hpost]; exists post.
        -- rewrite Hpost. reflexivity.
        -- injection Hpost as Hpost. exact Hpost.
      * split; [discriminate|].
        intros [post Hpost]. injection Hpost as Hcd _. congruence.
Qed.

(** [str_in] is the substring test: [a] stands in [t] between some [pre] and
    some [post]. *)
Lemma str_in_spec (a t : string) :
  str_in a t = true <-> exists pre post, t = pre +:+ a +:+ post.
Proof.
  split.
  - induction t as [|c t IH]; cbn [str_in]; rewrite orb_true_iff.
    + intros [Hpre|Hfalse]; [|discriminate].
      apply prefix_spec in Hpre as [post Hpost]. exists "", post. exact Hpost.
    + intros [Hpre|Hrest].
      * apply prefix_spec in Hpre as [post Hpost]. exists "", post. exact Hpost.
      * destruct (IH Hrest) as (pre & post & Ht).
        exists (String c pre), post. rewrite Ht. reflexivity.
  - intros (pre & post & Ht). revert t Ht.
    induction pre as [|c pre IH]; intros t Ht.
    + assert (Hpre : String.prefix a t = true) by (apply prefix_spec; eauto).
      destruct t; cbn [str_in]; rewrite Hpre; reflexivity.
    + subst t. change (str_in a (String c (pre +:+ a +:+ post)) = true).
      cbn [str_in]. rewrite (IH _ eq_refl). apply orb_true_r.
Qed.

(** A loop that appends the elements passing a test computes a filter. *)
Lemma fold_left_append_filter {A} (keep : A -> bool) (l acc : list A) :
  fold_left (fun found a => if keep a then (found ++ [a])%list else found) l acc
  = (acc ++ List.filter keep l)%list.
Proof.
  revert acc. induction l as [|a l IH]; intros acc; simpl.
  - rewrite app_nil_r. reflexivity.
  - rewrite IH. destruct (keep a); [|reflexivity].
    rewrite <- app_assoc. reflexivity.
Qed.

Section AllergenProperties.
Context `{!Python}.

Lemma detect_allergens_filter (t : string) (user_allergies : list string) :
  t <> "" ->
  detect_allergens (Some t) user_allergies =
  List.filter (fun a => str_in (lower a) (lower t)) user_allergies.
Proof.
  intros Ht. unfold detect_allergens.
  destruct (String.eqb_spec t ""); [contradiction|].
  cbv zeta. rewrite fold_left_append_filter. reflexivity.
Qed.

(** C4. [detect_allergens] returns the allergy terms whose lowercased form
    is a substring of the lowercased ingredients text, in the order of the
    allergy list, and the empty list when the text is absent or empty. With
    no text, the term peanut is not found; in the text "contains peanut
    oil", the term Peanut is. *)
Theorem detect_allergens_spec :
  (forall (ingredients_text : option string) (user_allergies : list string),
     detect_allergens ingredients_text user_allergies =
     match ingredients_text with
     | None => []
     | Some t =>
         if decide (t = "") then []
         else List.filter (fun a => str_in (lower a) (lower t)) user_allergies
     end) /\
  (forall a t : string,
     str_in a t = true <-> exists pre post, t = pre +:+ a +:+ post) /\
  detect_allergens None ["peanut"] = [] /\
  detect_allergens (Some "contains peanut oil") ["Peanut"] = ["Peanut"].
Proof.
  split; [|split; [|split]].
  - intros [t|] user_allergies; [|reflexivity].
    destruct (decide (t = "")) as [->|Ht]; [reflexivity|].
    apply detect_allergens_filter, Ht.
  - apply str_in_spec.
  - reflexivity.
  - rewrite detect_allergens_filter by discriminate.
    cbn [List.filter]. rewrite !lower_ascii by reflexivity.
    vm_compute. reflexivity.
Qed.

End AllergenProperties.

(** On an empty text nothing is found, not even the empty term, which is a
    substring of every text. *)
Example detect_allergens_empty_text :
  @detect_allergens Examples.python (Some "") [""] = [] /\
  @detect_allergens Examples.python (Some "oats") [""; "OAT"; "nut"] = [""; "OAT"].
Proof. split; vm_compute; reflexivity. Qed.

(** ** The alternative finder *)

Lemma first_five_length (v : pyval) (products : list pyval) :
  first_five v = inr products -> (length products <= 5)%nat.
Proof.
  destruct v; cbn; intros Hv; try discriminate;
    injection Hv as <-; rewrite ?length_fmap, length_take; lia.
Qed.

Section AlternativeProperties.
Context `{!Python, !Pydantic, !Requests}.

(** The name of a validated alternative is its validated [name] argument. *)
Lemma Alternative_new_name (name brand image_url barcode : pyval) (alt : Alternative.t) :
  Alternative_new name brand image_url barcode = inr alt ->
  required_str name = Some (Alternative.name alt).
Proof.
  unfold Alternative_new.
  destruct (required_str name) as [n|]; [|discriminate].
  destruct (optional_str brand) as [b|]; [|discriminate].
  destruct (optional_str image_url) as [i|]; [|discriminate].
  destruct (optional_str barcode) as [c|]; [|discriminate].
  cbn. intros Halt. injection Halt as <-. reflexivity.
Qed.

(** A product yields an alternative only when it is a dictionary; the name
    is then the validated product name, or "Alternative" when the product
    name is missing, [None] or empty. *)
Lemma alternative_of_name (p : pyval) (alt : Alternative.t) :
  alternative_of p = inr alt ->
  exists d, p = PDict d /\
    match d !! "product_name" with
    | Some v => if truthy v then required_str v = Some (Alternative.name alt)
                else Alternative.name alt = "Alternative"
    | None => Alternative.name alt = "Alternative"
    end.
Proof.
  unfold alternative_of. destruct p as [| | | | | |d|]; try discriminate.
  intros Halt. exists d. split; [reflexivity|].
  cbn in Halt.
  assert (Hname : required_str
            (if truthy (default PNone (d !! "product_name"))
             then default PNone (d !! "product_name") else PStr "Alternative")
          = Some (Alternative.name alt)).
  { destruct (truthy (default PNone (d !! "image_front_small_url")));
      cbn in Halt; exact (Alternative_new_name _ _ _ _ _ Halt). }
  destruct (d !! "product_name") as [v|]; cbn in Hname.
  - destruct (truthy v); [exact Hname|].
    rewrite required_str_str in Hname. injection Hname as Hname. symmetry. exact Hname.
  - rewrite required_str_str in Hname. injection Hname as Hname. symmetry. exact Hname.
Qed.

(** The loop extends [results] by alternatives of the products, no more of
    them than there are products. *)
Lemma append_alternatives_extends (products : list pyval)
    (results : list Alternative.t) :
  exists alts,
    fst (append_alternatives products results) = (results ++ alts)%list /\
    (length alts <= length products)%nat /\
    Forall (fun alt => exists p, p ∈ products /\ alternative_of p = inr alt) alts.
Proof.
  revert results. induction products as [|p products IH]; intros results;
    cbn [append_alternatives].
  - exists []. split; [|split]; [symmetry; apply app_nil_r | cbn; lia | constructor].
  - destruct (alternative_of p) as [e|alt] eqn:Hp.
    + exists []. split; [|split]; [symmetry; apply app_nil_r | cbn; lia | constructor].
    + destruct (IH (results ++ [alt])%list) as (alts & Hfst & Hlen & Hall).
      exists (alt :: alts). split; [|split].
      * rewrite Hfst, <- app_assoc. reflexivity.
      * cbn. lia.
      * constructor.
        -- exists p. split; [left | exact Hp].
        -- eapply Forall_impl; [exact Hall|].
           intros a (q & Hq & Ha). exists q. split; [right; exact Hq | exact Ha].
Qed.

(** When no product raises, the loop appends the alternative of each, in
    order. *)
Lemma append_alternatives_all (products : list pyval) (alts results : list Alternative.t) :
  Forall2 (fun p alt => alternative_of p = inr alt) products alts ->
  append_alternatives products results = ((results ++ alts)%list, None).
Proof.
  intros Hall. revert results.
  induction Hall as [|p alt products alts Hp _ IH]; intros results; cbn.
  - rewrite app_nil_r. reflexivity.
  - rewrite Hp, IH, <- app_assoc. reflexivity.
Qed.

Lemma find_alternatives_unfold (item : ScanItem.t) (goal : GoalType) :
  find_alternatives item goal =
  match searched_products item with
  | inr products => fst (append_alternatives products [])
  | inl _ => []
  end.
Proof.
  unfold find_alternatives, searched_products.
  destruct (get_json _) as [message|data]; [reflexivity|].
  destruct (py_get data "products" (PList []) ≫= first_five); reflexivity.
Qed.

(** How the loop ends: on the exception of the first product that raises,
    with the alternatives of the products before it appended; or, when no
    product raises, with the alternative of each. *)
Lemma append_alternatives_outcome (products : list pyval)
    (results : list Alternative.t) :
  match snd (append_alternatives products results) with
  | Some e =>
      exists n p alts,
        products !! n = Some p /\ alternative_of p = inl e /\
        Forall2 (fun p alt => alternative_of p = inr alt) (take n products) alts /\
        fst (append_alternatives products results) = (results ++ alts)%list
  | None =>
      exists alts,
        Forall2 (fun p alt => alternative_of p = inr alt) products alts /\
        fst (append_alternatives products results) = (results ++ alts)%list
  end.
Proof.
  revert results. induction products as [|p products IH]; intros results;
    cbn [append_alternatives].
  - cbn [snd fst]. exists []. split; [constructor | symmetry; apply app_nil_r].
  - destruct (alternative_of p) as [e|alt] eqn:Hp.
    + cbn [snd fst]. exists 0%nat, p, []. split; [reflexivity|].
      split; [exact Hp|]. split; [constructor | symmetry; apply app_nil_r].
    + specialize (IH (results ++ [alt])%list).
      destruct (snd (append_alternatives products (results ++ [alt])%list)) as [e|].
      * destruct IH as (n & q & alts & Hq & He & Hall & Hfst).
        exists (S n), q, (alt :: alts). split; [exact Hq|]. split; [exact He|].
        split; [cbn [take]; constructor; [exact Hp | exact Hall]|].
        rewrite Hfst, <- app_assoc. reflexivity.
      * destruct IH as (alts & Hall & Hfst).
        exists (alt :: alts). split; [constructor; [exact Hp | exact Hall]|].
        rewrite Hfst, <- app_assoc. reflexivity.
Qed.

(** C6. [find_alternatives] returns a list for every item and goal,
    and never an exception. When the request or the parser fails, or the
    body has no list of products to read, the list is empty. When a product
    raises inside the loop, the list holds the alternatives of the products
    before it, which need not be empty. It never holds more than five
    alternatives, each built from one of the first five products, its name
    "Alternative" when the product has no name. When nothing raises, the
    list holds the alternative of each of the first five products, in
    order. *)
Theorem find_alternatives_fail_open (item : ScanItem.t) (goal : GoalType) :
  (forall message,
     get_json (search_url
       (str_or (ScanItem.brand item) (str_or (ScanItem.name item) "healthy")))
     = inl message ->
     find_alternatives item goal = []) /\
  (forall e, searched_products item = inl e -> find_alternatives item goal = []) /\
  (forall products e,
     searched_products item = inr products ->
     search_failure item = Some e ->
     exists n p,
       products !! n = Some p /\ alternative_of p = inl e /\
       Forall2 (fun p alt => alternative_of p = inr alt)
         (take n products) (find_alternatives item goal)) /\
  (search_failure item = None ->
   exists products,
     searched_products item = inr products /\
     Forall2 (fun p alt => alternative_of p = inr alt)
       products (find_alternatives item goal)) /\
  (length (find_alternatives item goal) <= 5)%nat /\
  (forall alt, alt ∈ find_alternatives item goal ->
     exists products d,
       searched_products item = inr products /\
       (length products <= 5)%nat /\
       PDict d ∈ products /\
       alternative_of (PDict d) = inr alt /\
       match d !! "product_name" with
       | Some v => if truthy v then required_str v = Some (Alternative.name alt)
                   else Alternative.name alt = "Alternative"
       | None => Alternative.name alt = "Alternative"
       end) /\
  (forall products alts,
     searched_products item = inr products ->
     Forall2 (fun p alt => alternative_of p = inr alt) products alts ->
     find_alternatives item goal = alts).
Proof.
  split.
  { intros message Hget. unfold find_alternatives. rewrite Hget. reflexivity. }
  rewrite find_alternatives_unfold. unfold search_failure.
  destruct (searched_products item) as [e|products] eqn:Hsearch.
  - split; [reflexivity|]. split; [discriminate|]. split; [discriminate|].
    split; [cbn; lia|]. split.
    + intros alt Halt. inversion Halt.
    + intros products alts Hprod. discriminate.
  - assert (Hfive : (length products <= 5)%nat).
    { unfold searched_products in Hsearch.
      destruct (get_json _) as [|data]; [discriminate|].
      destruct (py_get data "products" (PList [])) as [|v]; [discriminate|].
      exact (first_five_length v products Hsearch). }
    pose proof (append_alternatives_outcome products []) as Houtcome.
    destruct (append_alternatives_extends products []) as (found & Hfst & Hlen & Hall).
    rewrite Hfst in *. cbn [app] in *.
    split; [discriminate|]. split; [|split; [|split; [|split]]].
    + intros products' e Hprod He. injection Hprod as <-. rewrite He in Houtcome.
      destruct Houtcome as (n & p & alts & Hp & Hraise & Hbefore & ->).
      exists n, p. split; [exact Hp|]. split; [exact Hraise | exact Hbefore].
    + intros Hnone. rewrite Hnone in Houtcome.
      destruct Houtcome as (alts & Hmapped & ->).
      exists products. split; [reflexivity | exact Hmapped].
    + lia.
    + intros alt Halt. rewrite Forall_forall in Hall.
      destruct (Hall alt Halt) as (p & Hp & Hmap).
      destruct (alternative_of_name p alt Hmap) as (d & -> & Hname).
      exists products, d. repeat split; assumption.
    + intros products' alts Hprod Hmap. injection Hprod as <-.
      rewrite (append_alternatives_all products alts [] Hmap) in Hfst.
      cbn in Hfst. symmetry. exact Hfst.
Qed.

End AlternativeProperties.

(** Offline, nothing is suggested. A third product that is not a dictionary
    stops the loop: the two alternatives appended before it are returned. *)
Example find_alternatives_offline :
  @find_alternatives Examples.python Examples.pydantic Examples.offline
    ScanItem.default balanced = [].
Proof. reflexivity. Qed.

Example find_alternatives_partial :
  let body :=
    Examples.dict
      [("products",
        PList [Examples.dict [("product_name", PStr "Oat drink"); ("code", PStr "42")];
               Examples.dict [("product_name", PStr "")];
               PNone;
               Examples.dict [("product_name", PStr "Muesli")]])] in
  @find_alternatives Examples.python Examples.pydantic (Examples.answering body)
    ScanItem.default balanced
  = [Alternative.mk "Oat drink" None None (Some "42");
     Alternative.mk "Alternative" None None None].
Proof. vm_compute. reflexivity. Qed.

(** ** The barcode lookup *)

Lemma py_get_inr (v : pyval) (key : string) (dflt r : pyval) :
  py_get v key dflt = inr r -> exists d, v = PDict d /\ r = default dflt (d !! key).
Proof.
  destruct v; cbn; intros Hget; try discriminate.
  injection Hget as <-. eauto.
Qed.

(** The dictionary literal of the [nutrients] argument holds each of its
    eight entries under its key. *)
Lemma nutrients_literal_lookup (calories protein carbs sugar fat sat_fat fiber sodium : pyval) :
  let d : pydict :=
    list_to_map
      [("calories", calories); ("protein", protein); ("carbs", carbs);
       ("sugar", sugar); ("fat", fat); ("sat_fat", sat_fat);
       ("fiber", fiber); ("sodium", sodium)] in
  d !! "calories" = Some calories /\ d !! "protein" = Some protein /\
  d !! "carbs" = Some carbs /\ d !! "sugar" = Some sugar /\
  d !! "fat" = Some fat /\ d !! "sat_fat" = Some sat_fat /\
  d !! "fiber" = Some fiber /\ d !! "sodium" = Some sodium.
Proof. cbv zeta. repeat split; vm_compute; reflexivity. Qed.

Section BarcodeProperties.
Context `{!Pydantic, !Requests}.

Lemma Nutrients_validate_fields (d : pydict) (nut : Nutrients.t) :
  Nutrients_validate d = Some nut ->
  float_field d "calories" = Some (Nutrients.calories nut) /\
  float_field d "protein" = Some (Nutrients.protein nut) /\
  float_field d "carbs" = Some (Nutrients.carbs nut) /\
  float_field d "sugar" = Some (Nutrients.sugar nut) /\
  float_field d "fat" = Some (Nutrients.fat nut) /\
  float_field d "sat_fat" = Some (Nutrients.sat_fat nut) /\
  float_field d "fiber" = Some (Nutrients.fiber nut) /\
  float_field d "sodium" = Some (Nutrients.sodium nut).
Proof.
  unfold Nutrients_validate.
  destruct (float_field d "calories"); [|discriminate].
  destruct (float_field d "protein"); [|discriminate].
  destruct (float_field d "carbs"); [|discriminate].
  destruct (float_field d "sugar"); [|discriminate].
  destruct (float_field d "fat"); [|discriminate].
  destruct (float_field d "sat_fat"); [|discriminate].
  destruct (float_field d "fiber"); [|discriminate].
  destruct (float_field d "sodium"); [|discriminate].
  cbn. intros Hnut. injection Hnut as <-. cbn. repeat split.
Qed.

Lemma ScanItem_new_nutrients (name brand barcode image_url ingredients_text : pyval)
    (nutrients : pydict) (processing_level : pyval) (item : ScanItem.t) :
  ScanItem_new name brand barcode image_url ingredients_text nutrients processing_level
  = inr item ->
  exists nut, Nutrients_validate nutrients = Some nut /\
              ScanItem.nutrients item = Some nut.
Proof.
  unfold ScanItem_new.
  destruct (optional_str name); [|discriminate].
  destruct (optional_str brand); [|discriminate].
  destruct (optional_str barcode); [|discriminate].
  destruct (optional_str image_url); [|discriminate].
  destruct (optional_str ingredients_text); [|discriminate].
  cbn. destruct (Nutrients_validate nutrients) as [nut|]; [|discriminate].
  cbn. destruct (optional_str processing_level); [|discriminate].
  cbn. intros Hitem. injection Hitem as <-. exists nut. split; reflexivity.
Qed.


(** The [try] block, case by case: the request or the parser fails; the body
    is not a dictionary; its status is not 1; the product or its nutriments
    are not dictionaries; otherwise the item is built from the product. *)
Lemma barcode_lookup_body_cases (code : string) :
  match get_json (OPENFOODFACTS_API +:+ code +:+ ".json") with
  | inl message => barcode_lookup_body code = inl (Error message)
  | inr (PDict d) =>
      if eq_one (default PNone (d !! "status")) then
        match default (PDict ∅) (d !! "product") with
        | PDict p =>
            match default (PDict ∅) (p !! "nutriments") with
            | PDict n =>
                barcode_lookup_body code =
                ScanItem_new
                  (default PNone (p !! "product_name"))
                  (default PNone (p !! "brands"))
                  (default PNone (p !! "code"))
                  (if truthy (default PNone (p !! "image_front_small_url"))
                   then default PNone (p !! "image_front_small_url")
                   else default PNone (p !! "image_url"))
                  (default PNone (p !! "ingredients_text"))
                  (list_to_map
                     [("calories", default PNone (n !! "energy-kcal_100g"));
                      ("protein", default PNone (n !! "proteins_100g"));
                      ("carbs", default PNone (n !! "carbohydrates_100g"));
                      ("sugar", default PNone (n !! "sugars_100g"));
                      ("fat", default PNone (n !! "fat_100g"));
                      ("sat_fat", default PNone (n !! "saturated-fat_100g"));
                      ("fiber", default PNone (n !! "fiber_100g"));
                      ("sodium", default PNone (n !! "sodium_100g"))])
                  (default PNone (p !! "nova_group"))
            | _ => exists message, barcode_lookup_body code = inl (Error message)
            end
        | _ => exists message, barcode_lookup_body code = inl (Error message)
        end
      else barcode_lookup_body code = inl (HTTPException 404 "Product not found")
  | inr _ => exists message, barcode_lookup_body code = inl (Error message)
  end.
Proof.
  unfold barcode_lookup_body.
  destruct (get_json _) as [message|data]; [reflexivity|].
  destruct data as [| | | | | |d|]; try (cbn; eauto; fail).
  cbn. destruct (eq_one (default PNone (d !! "status"))); [|reflexivity].
  cbn. destruct (default (PDict ∅) (d !! "product")) as [| | | | | |p|];
    try (cbn; eauto; fail).
  cbn. unfold nutriment.
  destruct (default (PDict ∅) (p !! "nutriments")) as [| | | | | |n|];
    destruct (truthy (default PNone (p !! "image_front_small_url")));
    cbn; eauto.
Qed.

(** The nutrient fields of a validated record, read off the nutriments [n]
    of the product: each field is the validation of the value under its own
    key, absent when the key is absent, the float when the value is one. *)
Lemma nutrients_mapped (n : pydict) (nut : Nutrients.t) :
  Nutrients_validate
    (list_to_map
       [("calories", default PNone (n !! "energy-kcal_100g"));
        ("protein", default PNone (n !! "proteins_100g"));
        ("carbs", default PNone (n !! "carbohydrates_100g"));
        ("sugar", default PNone (n !! "sugars_100g"));
        ("fat", default PNone (n !! "fat_100g"));
        ("sat_fat", default PNone (n !! "saturated-fat_100g"));
        ("fiber", default PNone (n !! "fiber_100g"));
        ("sodium", default PNone (n !! "sodium_100g"))]) = Some nut ->
  Forall (fun kf : string * (Nutrients.t -> option float) =>
            optional_float (default PNone (n !! kf.1)) = Some (kf.2 nut) /\
            (n !! kf.1 = None -> kf.2 nut = None) /\
            (forall f, n !! kf.1 = Some (PFloat f) -> kf.2 nut = Some f))
    nutriment_keys.
Proof.
  intros Hnut. apply Nutrients_validate_fields in Hnut.
  unfold float_field in Hnut.
  pose proof (nutrients_literal_lookup
    (default PNone (n !! "energy-kcal_100g")) (default PNone (n !! "proteins_100g"))
    (default PNone (n !! "carbohydrates_100g")) (default PNone (n !! "sugars_100g"))
    (default PNone (n !! "fat_100g")) (default PNone (n !! "saturated-fat_100g"))
    (default PNone (n !! "fiber_100g")) (default PNone (n !! "sodium_100g"))) as Hlit.
  cbv zeta in Hlit.
  destruct Hlit as (L1 & L2 & L3 & L4 & L5 & L6 & L7 & L8).
  rewrite L1, L2, L3, L4, L5, L6, L7, L8 in Hnut.
  destruct Hnut as (H1 & H2 & H3 & H4 & H5 & H6 & H7 & H8).
  assert (Hfield : forall (key : string) (v : option float),
    optional_float (default PNone (n !! key)) = Some v ->
    optional_float (default PNone (n !! key)) = Some v /\
    (n !! key = None -> v = None) /\
    (forall f, n !! key = Some (PFloat f) -> v = Some f)).
  { intros key v Hv. split; [exact Hv|]. split.
    - intros Hkey. rewrite Hkey in Hv. cbn in Hv.
      rewrite optional_float_none in Hv. injection Hv as <-. reflexivity.
    - intros f Hkey. rewrite Hkey in Hv. cbn in Hv.
      rewrite optional_float_float in Hv. injection Hv as <-. reflexivity. }
  unfold nutriment_keys.
  repeat (apply Forall_cons; split; [apply Hfield; assumption|]).
  apply Forall_nil_2.
Qed.


End BarcodeProperties.

(** An unknown code is NotFound; offline, the lookup is Internal; a product
    with nutriments becomes an item; a numeric NOVA group, which the string
    field [processing_level] refuses, is Internal. *)
Example barcode_lookup_unknown :
  @barcode_lookup Examples.pydantic
    (Examples.answering (Examples.dict [("status", PInt 0)])) "0000"
  = inl (HTTPException 404 "Product not found").
Proof. vm_compute. reflexivity. Qed.

Example barcode_lookup_offline :
  @barcode_lookup Examples.pydantic Examples.offline "0000"
  = inl (HTTPException 500 "Connection refused").
Proof. reflexivity. Qed.

Example barcode_lookup_found :
  let product :=
    Examples.dict
      [("product_name", PStr "Oat drink");
       ("nutriments",
        Examples.dict [("sugars_100g", PFloat 4.5); ("energy-kcal_100g", PInt 46)])] in
  @barcode_lookup Examples.pydantic
    (Examples.answering (Examples.dict [("status", PInt 1); ("product", product)])) "42"
  = inr (ScanItem.mk (Some "Oat drink") None None None None
           (Some (Nutrients.mk (Some 46%float) None None (Some 4.5%float)
                    None None None None))
           None).
Proof. vm_compute. reflexivity. Qed.

Example barcode_lookup_numeric_nova_group :
  let product := Examples.dict [("product_name", PStr "Muesli"); ("nova_group", PInt 3)] in
  @barcode_lookup Examples.pydantic
    (Examples.answering (Examples.dict [("status", PInt 1); ("product", product)])) "42"
  = inl (HTTPException 500 "validation error for ScanItem").
Proof. vm_compute. reflexivity. Qed.

(** ** The document store *)

Lemma take_one_nil {A} (l : list A) : take 1 l = [] -> l = [].
Proof. destruct l; [reflexivity | discriminate]. Qed.

(** A document a query returns carries the identifier it is stored under. *)
Lemma get_documents_id (collection_name : string) (filter_dict : list (string * string))
    (limit : nat) (db : Database.t) (doc : pydict) :
  doc ∈ Database.get_documents collection_name filter_dict limit db ->
  exists oid, doc !! "_id" = Some (PObjectId oid).
Proof.
  unfold Database.get_documents. intros Hdoc.
  apply elem_of_take in Hdoc as (i & Hdoc & _).
  apply list_elem_of_lookup_2, list_elem_of_In, filter_In in Hdoc as [Hdoc _].
  apply list_elem_of_In, list_elem_of_fmap in Hdoc as ([oid data] & -> & _).
  exists oid. unfold Database.document. apply lookup_insert_eq.
Qed.

Section StoreProperties.
Context `{!Python}.

Lemma create_document_collection (collection_name : string) (data : pydict)
    (db : Database.t) :
  let '(_id, db') := Database.create_document collection_name data db in
  _id = str (PObjectId (Database.next_id db)) /\
  Database.collection db' collection_name =
    (Database.collection db collection_name ++ [(Database.next_id db, data)])%list /\
  (forall other, other <> collection_name ->
     Database.collection db' other = Database.collection db other).
Proof.
  unfold Database.create_document, Database.collection. cbn.
  split; [reflexivity|]. split.
  - rewrite lookup_insert_eq. reflexivity.
  - intros other Hother. rewrite lookup_insert_ne by congruence. reflexivity.
Qed.

End StoreProperties.

(** ** The handlers *)

Lemma scan_record_allergens_found (r : ScanRecord.t) :
  Dump.scan_record r !! "allergens_found"
  = Some (Dump.strings (ScanRecord.allergens_found r)).
Proof. destruct r. vm_compute. reflexivity. Qed.

Lemma user_profile_fields (p : UserProfile.t) :
  Dump.user_profile p !! "_id" = None /\
  Dump.user_profile p !! "user_id" = Some (PStr (UserProfile.user_id p)) /\
  Dump.user_profile p !! "name" = Some (Dump.optional PStr (UserProfile.name p)) /\
  Dump.user_profile p !! "goal" = Some (Dump.goal (UserProfile.goal p)) /\
  Dump.user_profile p !! "allergies" = Some (Dump.strings (UserProfile.allergies p)) /\
  Dump.user_profile p !! "sensitivities"
    = Some (Dump.strings (UserProfile.sensitivities p)) /\
  Dump.user_profile p !! "language" = Some (Dump.language (UserProfile.language p)).
Proof. destruct p. repeat split; vm_compute; reflexivity. Qed.

Section HandlerProperties.
Context `{!Python, !Pydantic, !Requests}.

(** With no allergy to look for, nothing is found, whatever the text. *)
Lemma detect_allergens_nil (ingredients_text : option string) :
  detect_allergens ingredients_text [] = [].
Proof.
  unfold detect_allergens. destruct ingredients_text as [t|]; [|reflexivity].
  destruct (String.eqb t ""); reflexivity.
Qed.

(** C7. For every request the verdict handler calls the allergen detector
    with the empty allergy list: the allergens of the response and the
    [allergens_found] of the record it appends to the scanrecord collection
    are empty, whatever the ingredients text. The store is only written to:
    the profile collection is left as it is, and the verdict, allergens and
    alternatives of the response are the same over any two stores. *)
Theorem generate_verdict_no_allergens (req : VerdictRequest.t) (db : Database.t) :
  let response := fst (generate_verdict req db) in
  let db' := snd (generate_verdict req db) in
  VerdictResponse.allergens response = [] /\
  (exists record,
     ScanRecord.allergens_found record = [] /\
     Dump.scan_record record !! "allergens_found" = Some (PList []) /\
     Database.collection db' "scanrecord" =
       (Database.collection db "scanrecord"
          ++ [(Database.next_id db, Dump.scan_record record)])%list) /\
  Database.collection db' "userprofile" = Database.collection db "userprofile" /\
  (forall db2,
     let response2 := fst (generate_verdict req db2) in
     VerdictResponse.verdict response2 = VerdictResponse.verdict response /\
     VerdictResponse.allergens response2 = VerdictResponse.allergens response /\
     VerdictResponse.alternatives response2 = VerdictResponse.alternatives response).
Proof.
  cbv zeta. unfold generate_verdict.
  rewrite detect_allergens_nil.
  set (record := ScanRecord.mk _ _ _ _ _ _).
  pose proof (create_document_collection "scanrecord" (Dump.scan_record record) db)
    as Hcreate.
  destruct (Database.create_document "scanrecord" (Dump.scan_record record) db)
    as [scan_id db'].
  destruct Hcreate as (_ & Hscan & Hother). cbn [fst snd].
  split; [reflexivity|]. split; [|split].
  - exists record. split; [reflexivity|]. split; [|exact Hscan].
    rewrite scan_record_allergens_found. reflexivity.
  - apply Hother. discriminate.
  - intros db2.
    destruct (Database.create_document "scanrecord" (Dump.scan_record record) db2).
    repeat split.
Qed.

Lemma get_or_create_profile_existing (req : ProfileRequest.t) (db : Database.t)
    (doc : pydict) (docs : list pydict) :
  Database.get_documents "userprofile" [("user_id", ProfileRequest.user_id req)] 1 db
  = doc :: docs ->
  exists oid,
    doc !! "_id" = Some (PObjectId oid) /\
    get_or_create_profile req db
    = inr (<["_id" := PStr (str (PObjectId oid))]> doc, db).
Proof.
  intros Hdocs.
  destruct (get_documents_id "userprofile" [("user_id", ProfileRequest.user_id req)]
              1 db doc) as [oid Hoid].
  { rewrite Hdocs. left. }
  exists oid. split; [exact Hoid|].
  unfold get_or_create_profile. rewrite Hdocs, Hoid. reflexivity.
Qed.

(** After the creation, the query for the user returns the new document. *)
Lemma get_documents_created (user_id : string) (db : Database.t) :
  let data := Dump.user_profile (UserProfile.new user_id) in
  Database.get_documents "userprofile" [("user_id", user_id)] 1 db = [] ->
  Database.get_documents "userprofile" [("user_id", user_id)] 1
    (snd (Database.create_document "userprofile" data db))
  = [<["_id" := PObjectId (Database.next_id db)]> data].
Proof.
  cbv zeta. intros Hnone.
  pose proof (create_document_collection "userprofile"
                (Dump.user_profile (UserProfile.new user_id)) db) as Hcreate.
  destruct (Database.create_document _ _ db) as [_id db1].
  destruct Hcreate as (_ & Hcoll & _). cbn [snd].
  unfold Database.get_documents in *. apply take_one_nil in Hnone.
  rewrite Hcoll, fmap_app, List.filter_app, Hnone. cbn [app fmap list_fmap List.filter].
  assert (Hmatch : Database.matches [("user_id", user_id)]
            (Database.document
               (Database.next_id db, Dump.user_profile (UserProfile.new user_id)))
          = true).
  { unfold Database.matches, Database.document. cbn [forallb fst snd].
    rewrite lookup_insert_ne by discriminate.
    destruct (user_profile_fields (UserProfile.new user_id)) as (_ & -> & _).
    cbn. rewrite String.eqb_refl. reflexivity. }
  rewrite Hmatch. reflexivity.
Qed.

(** C8. The profile handler reads or creates. When the store holds a profile
    document for the user, the handler returns it, its identifier printed and
    every other field as stored, and leaves the store as it is. When it holds
    none, the handler stores and returns the default profile: goal balanced,
    no allergies, no sensitivities, language en. A second call for the same
    user then returns that same profile and changes nothing. *)
Theorem get_or_create_profile_read_or_create (req : ProfileRequest.t)
    (db : Database.t) :
  let user_id := ProfileRequest.user_id req in
  match Database.get_documents "userprofile" [("user_id", user_id)] 1 db with
  | doc :: _ =>
      exists oid response,
        doc !! "_id" = Some (PObjectId oid) /\
        get_or_create_profile req db = inr (response, db) /\
        response !! "_id" = Some (PStr (str (PObjectId oid))) /\
        (forall key, key <> "_id" -> response !! key = doc !! key)
  | [] =>
      exists response db1,
        get_or_create_profile req db = inr (response, db1) /\
        response = <["_id" := PStr (str (PObjectId (Database.next_id db)))]>
                     (Dump.user_profile (UserProfile.mk user_id None balanced [] [] en)) /\
        response !! "user_id" = Some (PStr user_id) /\
        response !! "goal" = Some (PStr "balanced") /\
        response !! "allergies" = Some (PList []) /\
        response !! "sensitivities" = Some (PList []) /\
        response !! "language" = Some (PStr "en") /\
        Database.collection db1 "userprofile" =
          (Database.collection db "userprofile"
             ++ [(Database.next_id db,
                  Dump.user_profile (UserProfile.mk user_id None balanced [] [] en))])%list /\
        get_or_create_profile req db1 = inr (response, db1)
  end.
Proof.
  cbv zeta.
  destruct (Database.get_documents "userprofile"
              [("user_id", ProfileRequest.user_id req)] 1 db) as [|doc docs] eqn:Hdocs.
  - set (profile := UserProfile.mk (ProfileRequest.user_id req) None balanced [] [] en).
    pose proof (get_documents_created (ProfileRequest.user_id req) db Hdocs) as Hfound.
    pose proof (create_document_collection "userprofile" (Dump.user_profile profile) db)
      as Hcreate.
    cbv zeta in Hfound. fold profile in Hfound.
    unfold get_or_create_profile at 1. rewrite Hdocs.
    change (UserProfile.new (ProfileRequest.user_id req)) with profile in *.
    destruct (Database.create_document "userprofile" (Dump.user_profile profile) db)
      as [_id db1] eqn:Hdb1.
    destruct Hcreate as (-> & Hcoll & _). cbn [snd] in Hfound.
    destruct (user_profile_fields profile) as (Hid & Huser & _ & Hgoal & Hall & Hsens & Hlang).
    eexists _, db1. split; [reflexivity|].
    assert (Hresponse :
      Dump.user_profile profile
        ∪ {["_id" := PStr (str (PObjectId (Database.next_id db)))]}
      = <["_id" := PStr (str (PObjectId (Database.next_id db)))]>
          (Dump.user_profile profile)).
    { symmetry. apply insert_union_singleton_r, Hid. }
    rewrite Hresponse.
    split; [reflexivity|].
    rewrite !lookup_insert_ne by discriminate.
    split; [exact Huser|]. split; [exact Hgoal|]. split; [exact Hall|].
    split; [exact Hsens|]. split; [exact Hlang|]. split; [exact Hcoll|].
    unfold get_or_create_profile. rewrite Hfound, lookup_insert_eq.
    cbn. rewrite insert_insert_eq. reflexivity.
  - destruct (get_or_create_profile_existing req db doc docs Hdocs) as (oid & Hoid & Hget).
    exists oid, (<["_id" := PStr (str (PObjectId oid))]> doc).
    split; [exact Hoid|]. split; [exact Hget|]. split.
    + apply lookup_insert_eq.
    + intros key Hkey. apply lookup_insert_ne. congruence.
Qed.

(** C9. The image handler does not read the uploaded file: two calls that
    differ in the file alone return the same response and store, and whatever
    the file, the network and the store, the item is the fixed stub, the
    verdict is the verdict of the stub for the goal, and no allergen is
    reported. *)
Theorem scan_image_ignores_file (user_id : string) (goal : GoalType)
    (file1 file2 : UploadFile.t) (db : Database.t) :
  scan_image user_id goal file1 db = scan_image user_id goal file2 db /\
  let response := fst (scan_image user_id goal file1 db) in
  ImageResponse.item response =
    ScanItem.mk (Some "Detected Meal") None None None (Some "rice, chicken, spices")
      (Some (Nutrients.mk (Some 250%float) (Some 18%float) (Some 30%float)
               (Some 2%float) None None None None))
      None /\
  ImageResponse.verdict response = compute_verdict goal (ImageResponse.item response) /\
  ImageResponse.allergens response = [].
Proof.
  split; [reflexivity|]. cbv zeta. unfold scan_image.
  rewrite detect_allergens_nil.
  destruct (Database.create_document _ _ db) as [scan_id db'].
  cbn [fst]. repeat split.
Qed.

End HandlerProperties.

(** ** The properties on the example runtime *)

Lemma detect_allergens_spec_witness :
  @detect_allergens Examples.python None ["peanut"] = [] /\
  @detect_allergens Examples.python (Some "contains peanut oil") ["Peanut"] = ["Peanut"].
Proof.
  destruct (@detect_allergens_spec Examples.python) as (_ & _ & Habsent & Hfound).
  split; [exact Habsent | exact Hfound].
Defined.


Lemma find_alternatives_fail_open_witness :
  @find_alternatives Examples.python Examples.pydantic Examples.offline
    ScanItem.default weight_loss = [].
Proof.
  destruct (@find_alternatives_fail_open Examples.python Examples.pydantic
              Examples.offline ScanItem.default weight_loss) as (Hoffline & _).
  apply (Hoffline "Connection refused"). reflexivity.
Defined.

(** The search answers, the third product is [null]: the [try] block ends on
    the attribute error of that product, a failure of the search, and the
    list returned holds the two alternatives built before it. *)
Lemma find_alternatives_partial_counterexample :
  @search_failure Examples.python Examples.pydantic
    (Examples.answering Examples.partial_body) ScanItem.default
  = Some (Error "'NoneType' object has no attribute 'get'") /\
  @find_alternatives Examples.python Examples.pydantic
    (Examples.answering Examples.partial_body) ScanItem.default balanced
  = [Alternative.mk "Oat drink" None None (Some "42");
     Alternative.mk "Alternative" None None None] /\
  @find_alternatives Examples.python Examples.pydantic
    (Examples.answering Examples.partial_body) ScanItem.default balanced <> [].
Proof.
  split; [vm_compute; reflexivity|]. split; [vm_compute; reflexivity|].
  vm_compute. discriminate.
Qed.

Example generate_verdict_peanut :
  let response :=
    fst (@generate_verdict Examples.python Examples.pydantic Examples.offline
           Examples.peanut_request Examples.peanut_store) in
  VerdictResponse.allergens response = [] /\
  @detect_allergens Examples.python (Some "roasted peanuts, salt") ["peanut"] = ["peanut"].
Proof. split; vm_compute; reflexivity. Qed.

Lemma generate_verdict_no_allergens_witness :
  VerdictResponse.allergens
    (fst (@generate_verdict Examples.python Examples.pydantic Examples.offline
            Examples.peanut_request Examples.peanut_store)) = [].
Proof.
  destruct (@generate_verdict_no_allergens Examples.python Examples.pydantic
              Examples.offline Examples.peanut_request Examples.peanut_store) as (Hallergens & _).
  exact Hallergens.
Defined.

(** On the empty store the first call for user u1 creates the default
    profile, and the second call on the store it leaves returns it again. *)
Lemma get_or_create_profile_read_or_create_witness :
  exists response db1,
    @get_or_create_profile Examples.python (ProfileRequest.mk "u1") Database.empty
      = inr (response, db1) /\
    response !! "goal" = Some (PStr "balanced") /\
    response !! "_id" = Some (PStr "0") /\
    @get_or_create_profile Examples.python (ProfileRequest.mk "u1") db1
      = inr (response, db1).
Proof.
  destruct (@get_or_create_profile_read_or_create Examples.python
              (ProfileRequest.mk "u1") Database.empty)
    as (response & db1 & Hfirst & -> & _ & Hgoal & _ & _ & _ & _ & Hsecond).
  eexists _, db1. split; [exact Hfirst|]. split; [exact Hgoal|].
  split; [|exact Hsecond]. vm_compute. reflexivity.
Defined.

Example get_or_create_profile_existing_peanut :
  exists response,
    @get_or_create_profile Examples.python (ProfileRequest.mk "u1") Examples.peanut_store
      = inr (response, Examples.peanut_store) /\
    response !! "_id" = Some (PStr "0") /\
    response !! "allergies" = Some (PList [PStr "peanut"]).
Proof. eexists. repeat split; vm_compute; reflexivity. Qed.

(** The verdict of the stub item, goal by goal. *)
Example detected_meal_verdicts :
  (fun goal => let v := compute_verdict goal detected_meal in
               (Verdict.score v, Verdict.color v, Verdict.insulin_risk v))
    <$> all_goals
  = [(70, yellow, medium); (70, yellow, medium); (75, green, medium);
     (90, green, low); (90, green, low)].
Proof. vm_compute. reflexivity. Qed.

Lemma scan_image_ignores_file_witness :
  @scan_image Examples.python Examples.pydantic Examples.offline "u1" low_sugar
    (UploadFile.mk (Some "a.png") None [x00; x01]) Database.empty
  = @scan_image Examples.python Examples.pydantic Examples.offline "u1" low_sugar
      (UploadFile.mk (Some "b.jpg") (Some "image/jpeg") [xff]) Database.empty.
Proof.
  destruct (@scan_image_ignores_file Examples.python Examples.pydantic Examples.offline
              "u1" low_sugar (UploadFile.mk (Some "a.png") None [x00; x01])
              (UploadFile.mk (Some "b.jpg") (Some "image/jpeg") [xff]) Database.empty)
    as (Hsame & _).
  exact Hsame.
Defined.

(** * Further properties *)

(** ** Order of binary64 values, continued *)

Lemma SFleb_trans (a b c : spec_float) :
  SFleb a b = true -> SFleb b c = true -> SFleb a c = true.
Proof.
  unfold SFleb.
  destruct a as [sa|sa| |sa ma ea], b as [sb|sb| |sb mb eb], c as [sc|sc| |sc mc ec];
    cbn -[Pos.compare Z.compare];
    try destruct sa; try destruct sb; try destruct sc;
    try discriminate; try reflexivity.
  all: change (PosDef.Pos.compare_cont Eq ?x ?y) with (Pos.compare x y).
  all: destruct (Z.compare_spec ea eb), (Z.compare_spec eb ec), (Z.compare_spec ea ec);
    try lia; cbn; try discriminate; try reflexivity.
  all: destruct (Pos.compare_spec ma mb), (Pos.compare_spec mb mc),
    (Pos.compare_spec ma mc);
    try lia; cbn; try discriminate; try reflexivity.
Qed.

Lemma SFltb_leb_trans (a b c : spec_float) :
  SFltb a b = true -> SFleb b c = true -> SFltb a c = true.
Proof.
  unfold SFleb, SFltb.
  destruct a as [sa|sa| |sa ma ea], b as [sb|sb| |sb mb eb], c as [sc|sc| |sc mc ec];
    cbn -[Pos.compare Z.compare];
    try destruct sa; try destruct sb; try destruct sc;
    try discriminate; try reflexivity.
  all: change (PosDef.Pos.compare_cont Eq ?x ?y) with (Pos.compare x y).
  all: destruct (Z.compare_spec ea eb), (Z.compare_spec eb ec), (Z.compare_spec ea ec);
    try lia; cbn; try discriminate; try reflexivity.
  all: destruct (Pos.compare_spec ma mb), (Pos.compare_spec mb mc),
    (Pos.compare_spec ma mc);
    try lia; cbn; try discriminate; try reflexivity.
Qed.

Lemma float_leb_trans (x y z : float) :
  (x <=? y)%float = true -> (y <=? z)%float = true -> (x <=? z)%float = true.
Proof. rewrite !FloatAxioms.leb_spec. apply SFleb_trans. Qed.

Lemma float_ltb_leb_trans (x y z : float) :
  (x <? y)%float = true -> (y <=? z)%float = true -> (x <? z)%float = true.
Proof. rewrite !FloatAxioms.ltb_spec, FloatAxioms.leb_spec. apply SFltb_leb_trans. Qed.

(** ** The verdict engine, goal by goal *)

(** Closes a case in which a test on the goal took the branch the goal
    excludes. *)
Ltac goal_test_absurd :=
  match goal with
  | H : @eq GoalType _ _ |- _ => discriminate H
  | H : ~ @eq GoalType ?g ?g |- _ => exfalso; apply H; reflexivity
  | H : _ ∈ [] |- _ => inversion H
  | H : _ ∈ _ :: _ |- _ =>
      apply elem_of_cons in H; destruct H as [H|H];
      [discriminate H | goal_test_absurd]
  | H : ~ _ ∈ _ |- _ => exfalso; apply H; solve [repeat constructor]
  end.

(** The three blocks of [compute_verdict] amount to one grading of the
    nutrient its goal reads. *)
Lemma score_and_risk_graded (goal : GoalType) (item : ScanItem.t) :
  score_and_risk goal item = graded goal (nutrient (goal_nutrient goal) item).
Proof.
  unfold score_and_risk, graded.
  destruct goal; cbn [goal_nutrient];
    try destruct (nutrient (fun _ => None) item);
    destruct (nutrient Nutrients.sugar item) as [s|],
             (nutrient Nutrients.protein item) as [p|],
             (nutrient Nutrients.calories item) as [c|];
    cbn -[PrimFloat.leb PrimFloat.ltb];
    repeat match goal with
           | |- context [if ?b then _ else _] => destruct b
           end;
    try goal_test_absurd; reflexivity.
Qed.

Lemma compute_verdict_graded (goal : GoalType) (item : ScanItem.t) :
  outcome (compute_verdict goal item) =
  let '(score, risk) := graded goal (nutrient (goal_nutrient goal) item) in
  (score, Reference.color_of_score score, risk).
Proof.
  unfold outcome, compute_verdict. rewrite score_and_risk_graded.
  unfold graded.
  destruct (nutrient (goal_nutrient goal) item) as [x|], goal;
    cbn -[PrimFloat.leb PrimFloat.ltb Z.max Z.min Z.leb];
    repeat match goal with
           | |- context [PrimFloat.leb ?a ?b] => destruct (PrimFloat.leb a b)
           | |- context [PrimFloat.ltb ?a ?b] => destruct (PrimFloat.ltb a b)
           end;
    reflexivity.
Qed.

(** X1. Every verdict is one of the few its goal can receive (one for the goal
    balanced, four for muscle_gain, three for the others); a red verdict comes from the sugar block alone, with a high
    insulin risk. *)
Theorem compute_verdict_outcomes (goal : GoalType) (item : ScanItem.t) :
  outcome (compute_verdict goal item) ∈ outcomes goal /\
  (Verdict.color (compute_verdict goal item) = red ->
   goal ∈ [low_sugar; heart_health] /\
   Verdict.score (compute_verdict goal item) = 45 /\
   Verdict.insulin_risk (compute_verdict goal item) = high) /\
  (Verdict.insulin_risk (compute_verdict goal item) <> medium ->
   goal ∈ [low_sugar; heart_health]).
Proof.
  pose proof (compute_verdict_graded goal item) as Hgraded.
  unfold outcome in *. unfold graded in Hgraded.
  destruct (compute_verdict goal item) as [color score explanation risk].
  cbn [Verdict.score Verdict.color Verdict.insulin_risk] in *.
  destruct (nutrient (goal_nutrient goal) item) as [x|], goal;
    cbn -[PrimFloat.leb PrimFloat.ltb] in Hgraded;
    repeat match type of Hgraded with
           | context [PrimFloat.leb ?a ?b] => destruct (PrimFloat.leb a b)
           | context [PrimFloat.ltb ?a ?b] => destruct (PrimFloat.ltb a b)
           end;
    cbn in Hgraded;
    injection Hgraded as -> -> ->;
    (split; [unfold outcomes; repeat constructor|]);
    (split; [intros Hred; try discriminate Hred; repeat split; repeat constructor
            |intros Hrisk; try (exfalso; apply Hrisk; reflexivity);
             repeat constructor]).
Qed.

(** X2. The verdict depends on the item through the nutrient its goal reads, and
    on nothing else: not on the name, the ingredients or the other
    nutrients. *)
Theorem compute_verdict_frame (goal : GoalType) (item1 item2 : ScanItem.t) :
  nutrient (goal_nutrient goal) item1 = nutrient (goal_nutrient goal) item2 ->
  compute_verdict goal item1 = compute_verdict goal item2.
Proof.
  intros Hsame. unfold compute_verdict.
  rewrite !score_and_risk_graded, Hsame. reflexivity.
Qed.

Lemma compute_verdict_frame_witness :
  compute_verdict weight_loss
    (ScanItem.mk (Some "Granola") None None None (Some "oats, honey")
       (Some (Nutrients.mk (Some 120%float) (Some 9%float) None (Some 30%float)
                None None None None)) None)
  = compute_verdict weight_loss (only_calories 120).
Proof. apply compute_verdict_frame. reflexivity. Defined.

(** X3. The goals heart_health and low_sugar are graded alike. *)
Theorem compute_verdict_heart_health_low_sugar (item : ScanItem.t) :
  compute_verdict heart_health item = compute_verdict low_sugar item.
Proof.
  unfold compute_verdict. rewrite !score_and_risk_graded. cbn [goal_nutrient].
  destruct (nutrient Nutrients.sugar item); reflexivity.
Qed.

(** X4. More sugar never raises the score of the sugar goals, more protein never
    lowers the score of muscle_gain, more calories never raise the score of
    weight_loss. The amounts compared are ordered, hence not NaN. *)
Theorem compute_verdict_monotone (item1 item2 : ScanItem.t) :
  (forall goal s1 s2,
     goal ∈ [low_sugar; heart_health] ->
     nutrient Nutrients.sugar item1 = Some s1 ->
     nutrient Nutrients.sugar item2 = Some s2 ->
     (s1 <=? s2)%float = true ->
     Verdict.score (compute_verdict goal item2)
       <= Verdict.score (compute_verdict goal item1)) /\
  (forall p1 p2,
     nutrient Nutrients.protein item1 = Some p1 ->
     nutrient Nutrients.protein item2 = Some p2 ->
     (p1 <=? p2)%float = true ->
     Verdict.score (compute_verdict muscle_gain item1)
       <= Verdict.score (compute_verdict muscle_gain item2)) /\
  (forall c1 c2,
     nutrient Nutrients.calories item1 = Some c1 ->
     nutrient Nutrients.calories item2 = Some c2 ->
     (c1 <=? c2)%float = true ->
     Verdict.score (compute_verdict weight_loss item2)
       <= Verdict.score (compute_verdict weight_loss item1)).
Proof.
  assert (Hscore : forall goal item,
    Verdict.score (compute_verdict goal item)
    = fst (graded goal (nutrient (goal_nutrient goal) item))).
  { intros goal item. pose proof (compute_verdict_graded goal item) as Hg.
    unfold outcome in Hg. destruct (graded _ _) as [score risk].
    injection Hg as -> _ _. reflexivity. }
  split; [|split].
  - intros goal s1 s2 Hgoal H1 H2 Hle. rewrite !Hscore.
    assert (Hsugar : goal_nutrient goal = Nutrients.sugar).
    { destruct goal; try reflexivity; goal_test_absurd. }
    rewrite Hsugar, H1, H2.
    assert (Hgraded : forall s, fst (graded goal (Some s))
      = if (s <=? 5)%float then 90 else if (s <=? 10)%float then 70 else 45).
    { intros s. destruct goal; try goal_test_absurd; cbn -[PrimFloat.leb];
        destruct (s <=? 5)%float, (s <=? 10)%float; reflexivity. }
    rewrite !Hgraded.
    destruct (s2 <=? 5)%float eqn:E25.
    { rewrite (float_leb_trans s1 s2 5 Hle E25). lia. }
    destruct (s2 <=? 10)%float eqn:E210.
    { rewrite (float_leb_trans s1 s2 10 Hle E210).
      destruct (s1 <=? 5)%float; lia. }
    destruct (s1 <=? 5)%float, (s1 <=? 10)%float; lia.
  - intros p1 p2 H1 H2 Hle. rewrite !Hscore. cbn [goal_nutrient].
    rewrite H1, H2. cbn -[PrimFloat.leb].
    destruct (20 <=? p1)%float eqn:E120.
    { rewrite (float_leb_trans 20 p1 p2 E120 Hle). lia. }
    destruct (10 <=? p1)%float eqn:E110.
    { rewrite (float_leb_trans 10 p1 p2 E110 Hle).
      destruct (20 <=? p2)%float; lia. }
    destruct (20 <=? p2)%float, (10 <=? p2)%float; lia.
  - intros c1 c2 H1 H2 Hle. rewrite !Hscore. cbn [goal_nutrient].
    rewrite H1, H2. cbn -[PrimFloat.leb PrimFloat.ltb].
    destruct (c2 <=? 150)%float eqn:E2.
    { rewrite (float_leb_trans c1 c2 150 Hle E2). lia. }
    destruct (350 <? c1)%float eqn:E1.
    { rewrite (float_ltb_leb_trans 350 c1 c2 E1 Hle).
      destruct (c1 <=? 150)%float; lia. }
    destruct (c1 <=? 150)%float, (350 <? c2)%float; lia.
Qed.

Lemma compute_verdict_monotone_witness :
  Verdict.score (compute_verdict low_sugar (only_sugar 12))
    <= Verdict.score (compute_verdict low_sugar (only_sugar 4)).
Proof.
  destruct (compute_verdict_monotone (only_sugar 4) (only_sugar 12)) as (Hsugar & _).
  apply (Hsugar low_sugar 4%float 12%float); try reflexivity.
  repeat constructor.
Defined.

(** ** The allergen detector, continued *)

Lemma string_app_cons (x : ascii) (a b : string) :
  String x a +:+ b = String x (a +:+ b).
Proof. reflexivity. Qed.

Lemma string_app_assoc (a b c : string) : (a +:+ b) +:+ c = a +:+ (b +:+ c).
Proof.
  induction a as [|x a IH]; [reflexivity|].
  rewrite !string_app_cons, IH. reflexivity.
Qed.

Lemma is_ascii_app (a b : string) : is_ascii (a +:+ b) = is_ascii a && is_ascii b.
Proof.
  induction a as [|x a IH]; [reflexivity|].
  rewrite string_app_cons. cbn [is_ascii]. rewrite IH. apply andb_assoc.
Qed.

Lemma ascii_lower_app (a b : string) :
  ascii_lower (a +:+ b) = ascii_lower a +:+ ascii_lower b.
Proof.
  induction a as [|x a IH]; [reflexivity|].
  rewrite string_app_cons. cbn [ascii_lower]. rewrite IH. reflexivity.
Qed.

(** The empty string is a substring of every string. *)
Lemma str_in_empty (t : string) : str_in "" t = true.
Proof. destruct t; reflexivity. Qed.

(** A substring of [t] is a substring of every string around [t]. *)
Lemma str_in_extend (a t pre post : string) :
  str_in a t = true -> str_in a (pre +:+ t +:+ post) = true.
Proof.
  rewrite !str_in_spec. intros (pre' & post' & ->).
  exists (pre +:+ pre'), (post' +:+ post).
  rewrite !string_app_assoc. reflexivity.
Qed.

Lemma filter_sublist {A} (keep : A -> bool) (l : list A) :
  sublist (List.filter keep l) l.
Proof.
  induction l as [|a l IH]; cbn; [constructor|].
  destruct (keep a); [apply sublist_skip | apply sublist_cons]; exact IH.
Qed.

Section AllergenFurther.
Context `{!Python}.

(** X5. The allergens found are taken from the allergy list, in its order and
    without repeating a term more often than the list does; the terms of
    two lists put end to end are found list by list. *)
Theorem detect_allergens_sublist_app (ingredients_text : option string)
    (allergies1 allergies2 : list string) :
  sublist (detect_allergens ingredients_text allergies1) allergies1 /\
  (length (detect_allergens ingredients_text allergies1) <= length allergies1)%nat /\
  detect_allergens ingredients_text (allergies1 ++ allergies2)%list =
    (detect_allergens ingredients_text allergies1
       ++ detect_allergens ingredients_text allergies2)%list.
Proof.
  assert (Hcases : forall l,
    detect_allergens ingredients_text l = [] \/
    exists t, detect_allergens ingredients_text l =
              List.filter (fun a => str_in (lower a) (lower t)) l /\
              forall l', detect_allergens ingredients_text l' =
                         List.filter (fun a => str_in (lower a) (lower t)) l').
  { intros l. destruct ingredients_text as [t|]; [|left; reflexivity].
    destruct (decide (t = "")) as [->|Ht]; [left; reflexivity|].
    right. exists t. split; [|intros l']; apply detect_allergens_filter, Ht. }
  assert (Hsub : sublist (detect_allergens ingredients_text allergies1) allergies1).
  { destruct (Hcases allergies1) as [->|(t & -> & _)];
      [apply sublist_nil_l | apply filter_sublist]. }
  split; [exact Hsub|]. split; [apply sublist_length, Hsub|].
  destruct (Hcases allergies1) as [Hnil|(t & _ & Hall)].
  - destruct ingredients_text as [t|]; [|reflexivity].
    destruct (decide (t = "")) as [->|Ht]; [reflexivity|].
    rewrite !detect_allergens_filter by exact Ht. apply List.filter_app.
  - rewrite !Hall. apply List.filter_app.
Qed.

(** X6. The empty allergy term is found in every text that is not empty, and in
    no other: on an empty or absent text nothing is found. *)
Theorem detect_allergens_empty_term (ingredients_text : option string)
    (user_allergies : list string) :
  "" ∈ detect_allergens ingredients_text user_allergies <->
  (exists t, ingredients_text = Some t /\ t <> "") /\ "" ∈ user_allergies.
Proof.
  destruct ingredients_text as [t|].
  - destruct (decide (t = "")) as [->|Ht].
    + split; [intros Hin; inversion Hin|].
      intros [(t & Ht & Hne) _]. injection Ht as <-. contradiction.
    + rewrite detect_allergens_filter by exact Ht.
      rewrite list_elem_of_In, filter_In, <- list_elem_of_In.
      rewrite (lower_ascii "" eq_refl). cbn [ascii_lower]. rewrite str_in_empty.
      split; [intros [Hin _]; split; [eauto | exact Hin]
             |intros [_ Hin]; split; [exact Hin | reflexivity]].
  - split; [intros Hin; inversion Hin|].
    intros [(t & Ht & _) _]. discriminate.
Qed.

(** X7. On ASCII texts the case of the letters does not matter, and a term found
    in a text is found in every text that contains it. *)
Theorem detect_allergens_ascii (t : string) (user_allergies : list string) :
  t <> "" -> is_ascii t = true ->
  (forall t', t' <> "" -> is_ascii t' = true -> ascii_lower t' = ascii_lower t ->
     detect_allergens (Some t') user_allergies
     = detect_allergens (Some t) user_allergies) /\
  (forall pre post a, is_ascii pre = true -> is_ascii post = true ->
     a ∈ detect_allergens (Some t) user_allergies ->
     a ∈ detect_allergens (Some (pre +:+ t +:+ post)) user_allergies).
Proof.
  intros Ht Hascii. split.
  - intros t' Ht' Hascii' Hlower.
    rewrite !detect_allergens_filter by assumption.
    rewrite (lower_ascii t Hascii), (lower_ascii t' Hascii'), Hlower. reflexivity.
  - intros pre post a Hpre Hpost.
    assert (Hne : pre +:+ t +:+ post <> "").
    { destruct pre; cbn; [|discriminate]. destruct t; [contradiction | discriminate]. }
    rewrite !detect_allergens_filter by assumption.
    rewrite !list_elem_of_In, !filter_In.
    intros [Hin Hfound]. split; [exact Hin|].
    rewrite (lower_ascii t Hascii) in Hfound.
    rewrite (lower_ascii (pre +:+ t +:+ post))
      by (rewrite !is_ascii_app, Hpre, Hascii, Hpost; reflexivity).
    rewrite !ascii_lower_app. apply str_in_extend, Hfound.
Qed.

End AllergenFurther.

Lemma detect_allergens_ascii_witness :
  @detect_allergens Examples.python (Some "PEANUT Oil") ["peanut"; "soy"]
  = @detect_allergens Examples.python (Some "peanut oil") ["peanut"; "soy"].
Proof.
  apply (@detect_allergens_ascii Examples.python "peanut oil" ["peanut"; "soy"]);
    try discriminate; reflexivity.
Defined.

(** ** The alternative finder, continued *)

Section AlternativeFurther.
Context `{!Python, !Pydantic, !Requests}.

(** X8. The search reads the item's brand and name only, and not the goal: the
    brand when it is not empty, else the name when it is not empty, else
    "healthy". Two calls with the same query return the same list. *)
Theorem find_alternatives_query (item : ScanItem.t) (goal : GoalType) :
  let query := str_or (ScanItem.brand item) (str_or (ScanItem.name item) "healthy") in
  (forall item' goal',
     str_or (ScanItem.brand item') (str_or (ScanItem.name item') "healthy") = query ->
     find_alternatives item' goal' = find_alternatives item goal) /\
  (forall b, ScanItem.brand item = Some b -> b <> "" -> query = b) /\
  (forall n, (ScanItem.brand item = None \/ ScanItem.brand item = Some "") ->
     ScanItem.name item = Some n -> n <> "" -> query = n) /\
  ((ScanItem.brand item = None \/ ScanItem.brand item = Some "") ->
   (ScanItem.name item = None \/ ScanItem.name item = Some "") ->
   query = "healthy").
Proof.
  cbv zeta. split; [|split; [|split]].
  - intros item' goal' Hquery. unfold find_alternatives. rewrite Hquery. reflexivity.
  - intros b -> Hb. cbn. destruct (String.eqb_spec b ""); [contradiction | reflexivity].
  - intros n Hbrand -> Hn. destruct Hbrand as [-> | ->]; cbn;
      (destruct (String.eqb_spec n ""); [contradiction | reflexivity]).
  - intros [-> | ->] [-> | ->]; reflexivity.
Qed.

(** The loop stops at the first product that raises: the alternatives of the
    products before it are returned, and nothing of the products after it. *)
Lemma append_alternatives_stops (products : list pyval) (results : list Alternative.t) :
  exists n alts,
    fst (append_alternatives products results) = (results ++ alts)%list /\
    Forall2 (fun p alt => alternative_of p = inr alt) (take n products) alts /\
    (n = length products \/
     exists p e, products !! n = Some p /\ alternative_of p = inl e).
Proof.
  revert results. induction products as [|p products IH]; intros results;
    cbn [append_alternatives].
  - exists 0%nat, []. split; [symmetry; apply app_nil_r|].
    split; [constructor | left; reflexivity].
  - destruct (alternative_of p) as [e|alt] eqn:Hp.
    + exists 0%nat, []. split; [symmetry; apply app_nil_r|].
      split; [constructor | right; exists p, e; split; [reflexivity | exact Hp]].
    + destruct (IH (results ++ [alt])%list) as (n & alts & Hfst & Hall & Hstop).
      exists (S n), (alt :: alts). split; [|split].
      * rewrite Hfst, <- app_assoc. reflexivity.
      * cbn [take]. constructor; [exact Hp | exact Hall].
      * destruct Hstop as [-> | Hstop]; [left; reflexivity | right; exact Hstop].
Qed.

(** X9. When the search answers with a list of products, the alternatives
    returned are those of the products before the first one that raises, in
    order: of all of the first five when none raises, and of none of the
    products after one that does. *)
Theorem find_alternatives_stops (item : ScanItem.t) (goal : GoalType)
    (products : list pyval) :
  searched_products item = inr products ->
  exists n,
    Forall2 (fun p alt => alternative_of p = inr alt)
      (take n products) (find_alternatives item goal) /\
    (n = length products \/
     exists p e, products !! n = Some p /\ alternative_of p = inl e).
Proof.
  intros Hsearch. rewrite find_alternatives_unfold, Hsearch.
  destruct (append_alternatives_stops products []) as (n & alts & Hfst & Hall & Hstop).
  exists n. rewrite Hfst. cbn [app]. split; [exact Hall | exact Hstop].
Qed.

End AlternativeFurther.

Lemma find_alternatives_stops_witness :
  exists n,
    Forall2 (fun p alt =>
               @alternative_of Examples.pydantic p = inr alt)
      (take n [Examples.dict [("product_name", PStr "Oat drink")]; PNone;
               Examples.dict [("product_name", PStr "Muesli")]])
      (@find_alternatives Examples.python Examples.pydantic
         (Examples.answering
            (Examples.dict
               [("products",
                 PList [Examples.dict [("product_name", PStr "Oat drink")]; PNone;
                        Examples.dict [("product_name", PStr "Muesli")]])]))
         ScanItem.default balanced) /\
    (n = 3%nat \/
     exists p e,
       [Examples.dict [("product_name", PStr "Oat drink")]; PNone;
        Examples.dict [("product_name", PStr "Muesli")]] !! n = Some p /\
       @alternative_of Examples.pydantic p = inl e).
Proof.
  apply (@find_alternatives_stops Examples.python Examples.pydantic). 
  vm_compute. reflexivity.
Defined.

(** ** The barcode lookup, continued *)

Section BarcodeFurther.
Context `{!Pydantic, !Requests}.

Lemma ScanItem_new_fields (name brand barcode image_url ingredients_text : pyval)
    (nutrients : pydict) (processing_level : pyval) (item : ScanItem.t) :
  ScanItem_new name brand barcode image_url ingredients_text nutrients processing_level
  = inr item ->
  optional_str name = Some (ScanItem.name item) /\
  optional_str brand = Some (ScanItem.brand item) /\
  optional_str barcode = Some (ScanItem.barcode item) /\
  optional_str image_url = Some (ScanItem.image_url item) /\
  optional_str ingredients_text = Some (ScanItem.ingredients_text item) /\
  optional_str processing_level = Some (ScanItem.processing_level item).
Proof.
  unfold ScanItem_new.
  destruct (optional_str name); [|discriminate].
  destruct (optional_str brand); [|discriminate].
  destruct (optional_str barcode); [|discriminate].
  destruct (optional_str image_url); [|discriminate].
  destruct (optional_str ingredients_text); [|discriminate].
  cbn. destruct (Nutrients_validate nutrients) as [nut|]; [|discriminate].
  cbn. destruct (optional_str processing_level); [|discriminate].
  cbn. intros Hitem. injection Hitem as <-. cbn. repeat split.
Qed.

(** A successful lookup, taken apart: the body, the product and the
    nutriments are dictionaries, the status is 1, and the item is the one
    the constructor validates. *)
Lemma barcode_lookup_success (code : string) (item : ScanItem.t) :
  barcode_lookup code = inr item ->
  exists d p n,
    get_json (OPENFOODFACTS_API +:+ code +:+ ".json") = inr (PDict d) /\
    eq_one (default PNone (d !! "status")) = true /\
    default (PDict ∅) (d !! "product") = PDict p /\
    default (PDict ∅) (p !! "nutriments") = PDict n /\
    ScanItem_new
      (default PNone (p !! "product_name"))
      (default PNone (p !! "brands"))
      (default PNone (p !! "code"))
      (if truthy (default PNone (p !! "image_front_small_url"))
       then default PNone (p !! "image_front_small_url")
       else default PNone (p !! "image_url"))
      (default PNone (p !! "ingredients_text"))
      (list_to_map
         [("calories", default PNone (n !! "energy-kcal_100g"));
          ("protein", default PNone (n !! "proteins_100g"));
          ("carbs", default PNone (n !! "carbohydrates_100g"));
          ("sugar", default PNone (n !! "sugars_100g"));
          ("fat", default PNone (n !! "fat_100g"));
          ("sat_fat", default PNone (n !! "saturated-fat_100g"));
          ("fiber", default PNone (n !! "fiber_100g"));
          ("sodium", default PNone (n !! "sodium_100g"))])
      (default PNone (p !! "nova_group"))
    = inr item.
Proof.
  unfold barcode_lookup. pose proof (barcode_lookup_body_cases code) as Hcases.
  destruct (get_json _) as [message|data].
  { rewrite Hcases. discriminate. }
  destruct data as [| | | | | |d|].
  1-6, 8: destruct Hcases as [message Hbody]; rewrite Hbody; discriminate.
  destruct (eq_one (default PNone (d !! "status"))) eqn:Hone;
    [|rewrite Hcases; discriminate].
  destruct (default (PDict ∅) (d !! "product")) as [| | | | | |p|] eqn:Hp.
  1-6, 8: destruct Hcases as [message Hbody]; rewrite Hbody; discriminate.
  destruct (default (PDict ∅) (p !! "nutriments")) as [| | | | | |n|] eqn:Hn.
  1-6, 8: destruct Hcases as [message Hbody]; rewrite Hbody; discriminate.
  rewrite Hcases. intros Hitem. exists d, p, n.
  repeat (split; [reflexivity || assumption|]).
  destruct (ScanItem_new _ _ _ _ _ _ _) as [[]|item']; [discriminate..|].
  exact Hitem.
Qed.

(** X10. On success every string field of the item is the validated value under
    its key of the product; the item's barcode is the product's own code,
    not the code asked for, and the image is the small front image unless
    that is missing or empty. *)
Theorem barcode_lookup_fields (code : string) (item : ScanItem.t) :
  barcode_lookup code = inr item ->
  exists d p,
    get_json (OPENFOODFACTS_API +:+ code +:+ ".json") = inr (PDict d) /\
    default (PDict ∅) (d !! "product") = PDict p /\
    optional_str (default PNone (p !! "product_name")) = Some (ScanItem.name item) /\
    optional_str (default PNone (p !! "brands")) = Some (ScanItem.brand item) /\
    optional_str (default PNone (p !! "code")) = Some (ScanItem.barcode item) /\
    optional_str
      (if truthy (default PNone (p !! "image_front_small_url"))
       then default PNone (p !! "image_front_small_url")
       else default PNone (p !! "image_url"))
    = Some (ScanItem.image_url item) /\
    optional_str (default PNone (p !! "ingredients_text"))
    = Some (ScanItem.ingredients_text item) /\
    optional_str (default PNone (p !! "nova_group"))
    = Some (ScanItem.processing_level item).
Proof.
  intros Hitem.
  destruct (barcode_lookup_success code item Hitem)
    as (d & p & n & Hresponse & _ & Hp & _ & Hnew).
  exists d, p. split; [exact Hresponse|]. split; [exact Hp|].
  exact (ScanItem_new_fields _ _ _ _ _ _ _ _ Hnew).
Qed.

(** X11. A product without nutriments becomes an item whose nutrient record has
    every field absent, and so receives the neutral verdict for every
    goal. *)
Theorem barcode_lookup_no_nutriments (code : string) (item : ScanItem.t)
    (d p : pydict) :
  get_json (OPENFOODFACTS_API +:+ code +:+ ".json") = inr (PDict d) ->
  d !! "product" = Some (PDict p) ->
  p !! "nutriments" = None ->
  barcode_lookup code = inr item ->
  ScanItem.nutrients item = Some Nutrients.default /\
  forall goal, outcome (compute_verdict goal item) = (70, yellow, medium).
Proof.
  intros Hresponse Hproduct Hnutriments Hitem.
  destruct (barcode_lookup_success code item Hitem)
    as (d' & p' & n & Hresponse' & _ & Hp & Hn & Hnew).
  rewrite Hresponse in Hresponse'. injection Hresponse' as <-.
  rewrite Hproduct in Hp. cbn in Hp. injection Hp as <-.
  rewrite Hnutriments in Hn. cbn in Hn. injection Hn as <-.
  destruct (ScanItem_new_nutrients _ _ _ _ _ _ _ _ Hnew) as (nut & Hval & Hnut).
  pose proof (nutrients_mapped ∅ nut Hval) as Hfields.
  assert (Hdefault : nut = Nutrients.default).
  { unfold nutriment_keys in Hfields.
    repeat match goal with
           | H : Forall _ (_ :: _) |- _ =>
               apply Forall_cons in H as [(_ & ? & _) H]
           end.
    destruct nut. cbn [fst snd] in *. unfold Nutrients.default.
    repeat match goal with
           | H : ∅ !! _ = None -> _ |- _ => specialize (H (lookup_empty _))
           end.
    cbn in *. congruence. }
  subst nut. split; [exact Hnut|].
  intros goal. rewrite compute_verdict_graded.
  assert (Habsent : nutrient (goal_nutrient goal) item = None).
  { unfold nutrient. rewrite Hnut. destruct goal; reflexivity. }
  rewrite Habsent. reflexivity.
Qed.

End BarcodeFurther.

Lemma barcode_lookup_fields_witness :
  exists d p : pydict,
    @get_json (Examples.answering Examples.alpro_body)
      (OPENFOODFACTS_API +:+ "42" +:+ ".json") = inr (PDict d) /\
    default (PDict ∅) (d !! "product") = PDict p /\
    Examples.optional_str (default PNone (p !! "product_name")) = Some None /\
    Examples.optional_str (default PNone (p !! "brands")) = Some (Some "Alpro") /\
    Examples.optional_str (default PNone (p !! "code")) = Some (Some "54") /\
    Examples.optional_str
      (if truthy (default PNone (p !! "image_front_small_url"))
       then default PNone (p !! "image_front_small_url")
       else default PNone (p !! "image_url"))
    = Some (Some "https://images.example/54.jpg") /\
    Examples.optional_str (default PNone (p !! "ingredients_text")) = Some None /\
    Examples.optional_str (default PNone (p !! "nova_group")) = Some None.
Proof.
  apply (@barcode_lookup_fields Examples.pydantic
           (Examples.answering Examples.alpro_body) "42" Examples.alpro_item).
  vm_compute. reflexivity.
Defined.

Lemma barcode_lookup_no_nutriments_witness :
  ScanItem.nutrients
    (ScanItem.mk (Some "Water") None None None None (Some Nutrients.default) None)
  = Some Nutrients.default /\
  outcome
    (compute_verdict weight_loss
       (ScanItem.mk (Some "Water") None None None None (Some Nutrients.default) None))
  = (70, yellow, medium).
Proof.
  destruct (@barcode_lookup_no_nutriments Examples.pydantic
              (Examples.answering
                 (Examples.dict
                    [("status", PInt 1);
                     ("product", Examples.dict [("product_name", PStr "Water")])]))
              "7"
              (ScanItem.mk (Some "Water") None None None None
                 (Some Nutrients.default) None)
              (list_to_map
                 [("status", PInt 1);
                  ("product", Examples.dict [("product_name", PStr "Water")])])
              (list_to_map [("product_name", PStr "Water")]))
    as [Hnutrients Hverdict]; try (vm_compute; reflexivity).
  split; [exact Hnutrients | apply Hverdict].
Defined.

Section BarcodeEdges.
Context `{!Pydantic, !Requests}.

(** The constructor given [None] for every field returns the empty item with
    an all-absent nutrient record. *)
Lemma ScanItem_new_none :
  ScanItem_new PNone PNone PNone PNone PNone
    (list_to_map
       [("calories", PNone); ("protein", PNone); ("carbs", PNone); ("sugar", PNone);
        ("fat", PNone); ("sat_fat", PNone); ("fiber", PNone); ("sodium", PNone)])
    PNone
  = inr (ScanItem.mk None None None None None (Some Nutrients.default) None).
Proof.
  unfold ScanItem_new, Nutrients_validate, float_field.
  destruct (nutrients_literal_lookup PNone PNone PNone PNone PNone PNone PNone PNone)
    as (L1 & L2 & L3 & L4 & L5 & L6 & L7 & L8).
  rewrite L1, L2, L3, L4, L5, L6, L7, L8.
  rewrite !optional_str_none, !optional_float_none. reflexivity.
Qed.

(** X12. A body with status 1 and no product at all is a success: the lookup
    returns the empty item. *)
Theorem barcode_lookup_missing_product (code : string) (d : pydict) :
  get_json (OPENFOODFACTS_API +:+ code +:+ ".json") = inr (PDict d) ->
  eq_one (default PNone (d !! "status")) = true ->
  d !! "product" = None ->
  barcode_lookup code
  = inr (ScanItem.mk None None None None None (Some Nutrients.default) None).
Proof.
  intros Hresponse Hone Hproduct.
  pose proof (barcode_lookup_body_cases code) as Hcases.
  rewrite Hresponse, Hone, Hproduct in Hcases. cbn [default] in Hcases.
  rewrite lookup_empty in Hcases. cbn [default] in Hcases.
  unfold barcode_lookup. rewrite Hcases, !lookup_empty. cbn [default truthy].
  rewrite ScanItem_new_none. reflexivity.
Qed.

(** X13. A body that is not a dictionary is Internal, with the text of the
    attribute error. The status is tested before the product is read: when
    it is not 1 the answer is NotFound whatever the product holds, and when
    it is 1 a product or a nutriments entry that is not a dictionary, such
    as [null], is Internal, with the text of the attribute error. *)
Theorem barcode_lookup_malformed (code : string) :
  let response := get_json (OPENFOODFACTS_API +:+ code +:+ ".json") in
  let internal (v : pyval) : exn + ScanItem.t :=
    inl (HTTPException 500
           ("'" +:+ type_name v +:+ "' object has no attribute 'get'")) in
  (forall v, response = inr v -> (forall d, v <> PDict d) ->
     barcode_lookup code = internal v) /\
  (forall d, response = inr (PDict d) ->
     eq_one (default PNone (d !! "status")) = false ->
     barcode_lookup code = inl (HTTPException 404 "Product not found")) /\
  (forall d v, response = inr (PDict d) ->
     eq_one (default PNone (d !! "status")) = true ->
     d !! "product" = Some v -> (forall p, v <> PDict p) ->
     barcode_lookup code = internal v) /\
  (forall d p v, response = inr (PDict d) ->
     eq_one (default PNone (d !! "status")) = true ->
     d !! "product" = Some (PDict p) ->
     p !! "nutriments" = Some v -> (forall n, v <> PDict n) ->
     barcode_lookup code = internal v).
Proof.
  cbv zeta. unfold barcode_lookup, barcode_lookup_body. split; [|split; [|split]].
  - intros v -> Hv.
    destruct v; try reflexivity. exfalso. exact (Hv _ eq_refl).
  - intros d -> Hone. cbn. rewrite Hone. reflexivity.
  - intros d v -> Hone Hproduct Hv. cbn. rewrite Hone, Hproduct. cbn.
    destruct v; try reflexivity. exfalso. exact (Hv _ eq_refl).
  - intros d p v -> Hone Hproduct Hnutriments Hv. cbn. rewrite Hone, Hproduct. cbn.
    unfold nutriment. cbn. rewrite Hnutriments. cbn.
    destruct (truthy (default PNone (p !! "image_front_small_url"))); cbn;
      (destruct v; try reflexivity; exfalso; exact (Hv _ eq_refl)).
Qed.

End BarcodeEdges.

Lemma barcode_lookup_missing_product_witness :
  @barcode_lookup Examples.pydantic
    (Examples.answering (Examples.dict [("status", PBool true)])) "42"
  = inr (ScanItem.mk None None None None None (Some Nutrients.default) None).
Proof.
  apply (@barcode_lookup_missing_product Examples.pydantic
           (Examples.answering (Examples.dict [("status", PBool true)])) "42"
           (list_to_map [("status", PBool true)]));
    vm_compute; reflexivity.
Defined.

Lemma barcode_lookup_malformed_witness :
  @barcode_lookup Examples.pydantic
    (Examples.answering (Examples.dict [("status", PInt 1); ("product", PNone)])) "42"
  = inl (HTTPException 500 "'NoneType' object has no attribute 'get'").
Proof.
  destruct (@barcode_lookup_malformed Examples.pydantic
              (Examples.answering
                 (Examples.dict [("status", PInt 1); ("product", PNone)])) "42")
    as (_ & _ & Hproduct & _).
  apply (Hproduct (list_to_map [("status", PInt 1); ("product", PNone)]) PNone);
    try (vm_compute; reflexivity).
  discriminate.
Defined.

(** ** The handlers, continued *)

Section HandlerFurther.
Context `{!Python, !Pydantic, !Requests}.

(** X14. What the verdict handler returns is what it stores: the record appended
    to the scanrecord collection holds the request's user, goal and item
    and the verdict, allergens and alternatives of the response; it is
    stored under the identifier whose text is the response's [scan_id]; the
    records stored before and the other collections are left as they are.
    The verdict is that of [compute_verdict], a valid one. *)
Theorem generate_verdict_persists (req : VerdictRequest.t) (db : Database.t) :
  let response := fst (generate_verdict req db) in
  let db' := snd (generate_verdict req db) in
  VerdictResponse.scan_id response = str (PObjectId (Database.next_id db)) /\
  Database.next_id db' = N.succ (Database.next_id db) /\
  VerdictResponse.verdict response
    = compute_verdict (VerdictRequest.goal req) (VerdictRequest.item req) /\
  Verdict.valid (VerdictResponse.verdict response) /\
  VerdictResponse.alternatives response
    = find_alternatives (VerdictRequest.item req) (VerdictRequest.goal req) /\
  Database.collection db' "scanrecord" =
    (Database.collection db "scanrecord"
       ++ [(Database.next_id db,
            Dump.scan_record
              (ScanRecord.mk (VerdictRequest.user_id req) (VerdictRequest.goal req)
                 (VerdictRequest.item req) (VerdictResponse.verdict response)
                 (VerdictResponse.allergens response)
                 (VerdictResponse.alternatives response)))])%list /\
  (forall other, other <> "scanrecord" ->
     Database.collection db' other = Database.collection db other).
Proof.
  cbv zeta. unfold generate_verdict.
  set (record := ScanRecord.mk _ _ _ _ _ _).
  pose proof (create_document_collection "scanrecord" (Dump.scan_record record) db)
    as Hcreate.
  unfold Database.create_document in *. cbn [fst snd] in *.
  destruct Hcreate as (_ & Hscan & Hother).
  assert (Hvalid : Verdict.valid
            (compute_verdict (VerdictRequest.goal req) (VerdictRequest.item req))).
  { unfold Verdict.valid. rewrite compute_verdict_score. lia. }
  split; [reflexivity|]. split; [reflexivity|]. split; [reflexivity|].
  split; [exact Hvalid|]. split; [reflexivity|].
  split; [exact Hscan | exact Hother].
Qed.

(** X15. The image handler is the verdict handler on the stub item: the same
    verdict, allergens, alternatives and identifier, and the same store
    afterwards. *)
Theorem scan_image_generate_verdict (user_id : string) (goal : GoalType)
    (file : UploadFile.t) (db : Database.t) :
  let request := VerdictRequest.mk user_id goal detected_meal in
  let image := fst (scan_image user_id goal file db) in
  let verdict := fst (generate_verdict request db) in
  ImageResponse.scan_id image = VerdictResponse.scan_id verdict /\
  ImageResponse.verdict image = VerdictResponse.verdict verdict /\
  ImageResponse.allergens image = VerdictResponse.allergens verdict /\
  ImageResponse.alternatives image = VerdictResponse.alternatives verdict /\
  snd (scan_image user_id goal file db) = snd (generate_verdict request db).
Proof.
  cbv zeta. unfold scan_image, generate_verdict.
  cbn [VerdictRequest.user_id VerdictRequest.goal VerdictRequest.item].
  destruct (Database.create_document _ _ db) as [scan_id db'].
  repeat split.
Qed.

(** X17. A call for one user leaves the profiles of the other users, and the
    scan records, as they were. *)
Theorem get_or_create_profile_other_users (req : ProfileRequest.t) (db db1 : Database.t)
    (response : pydict) (other : string) :
  get_or_create_profile req db = inr (response, db1) ->
  other <> ProfileRequest.user_id req ->
  (forall limit,
     Database.get_documents "userprofile" [("user_id", other)] limit db1
     = Database.get_documents "userprofile" [("user_id", other)] limit db) /\
  Database.collection db1 "scanrecord" = Database.collection db "scanrecord".
Proof.
  intros Hcall Hother. unfold get_or_create_profile in Hcall.
  destruct (Database.get_documents "userprofile"
              [("user_id", ProfileRequest.user_id req)] 1 db) as [|doc docs].
  - pose proof (create_document_collection "userprofile"
                  (Dump.user_profile (UserProfile.new (ProfileRequest.user_id req))) db)
      as Hcreate.
    destruct (Database.create_document _ _ db) as [_id db2].
    destruct Hcreate as (_ & Hcoll & Hrest).
    cbn in Hcall. injection Hcall as _ <-. split.
    + intros limit. unfold Database.get_documents.
      rewrite Hcoll, fmap_app, List.filter_app. cbn [fmap list_fmap List.filter].
      assert (Hmatch : Database.matches [("user_id", other)]
                (Database.document
                   (Database.next_id db,
                    Dump.user_profile (UserProfile.new (ProfileRequest.user_id req))))
              = false).
      { unfold Database.matches, Database.document. cbn [forallb fst snd].
        rewrite lookup_insert_ne by discriminate.
        destruct (user_profile_fields (UserProfile.new (ProfileRequest.user_id req)))
          as (_ & -> & _).
        cbn. destruct (String.eqb_spec (ProfileRequest.user_id req) other);
          [congruence | reflexivity]. }
      rewrite Hmatch, app_nil_r. reflexivity.
    + apply Hrest. discriminate.
  - destruct (doc !! "_id"); [|discriminate].
    cbn in Hcall. injection Hcall as _ <-. split; reflexivity.
Qed.

End HandlerFurther.

Lemma get_or_create_profile_other_users_witness :
  Database.get_documents "userprofile" [("user_id", "u1")] 1
    (snd (@Database.create_document Examples.python "userprofile"
            (Dump.user_profile (UserProfile.new "u2")) Examples.peanut_store))
  = Database.get_documents "userprofile" [("user_id", "u1")] 1 Examples.peanut_store.
Proof.
  eapply (@get_or_create_profile_other_users Examples.python
            (ProfileRequest.mk "u2") Examples.peanut_store).
  - vm_compute. reflexivity.
  - discriminate.
Defined.

(** ** The store check *)


(** Characters, not bytes, are counted: two accented letters are four
    bytes. *)
Example utf8_take_accents :
  utf8_take 2 "éèê" = "éè" /\ utf8_length "éèê" = 3%nat /\
  String.length (utf8_take 2 "éèê") = 4%nat.
Proof. repeat split; vm_compute; reflexivity. Qed.

